(** * buffalo: the causal error chain, the default error handler and the
      Sentry middleware

    A shallow embedding of [errors.go] (package [buffalo]) and of
    [middleware/sentry.go] (package [middleware]), followed by the
    properties of the causal-chain extractor, the renderer and the
    reporter.

    Go values are modelled as follows.
    - An [error] is an interface value: [None] is the nil interface,
      [Some v] holds a dynamic value [v : errval].
    - The optional capabilities of an error (the [Causer] and
      [StackTracer] interfaces) are part of the dynamic value.  Values
      are finite trees, so every caused-by chain of the model is finite.
    - A function that can panic returns an [outcome]; functions that
      touch the response, the logger, the Sentry client or the standard
      output thread a [World]. *)

From stdpp Require Import base option list strings gmap pretty.
From Stdlib Require Import ZArith Lia.

Local Open Scope string_scope.
Local Open Scope Z_scope.
Local Open Scope list_scope.

(** ** Collaborators: net/http, encoding/json and raven-go

    Only the parts that the two source files touch are modelled. *)

Module Http.

(** The structured documents that [encoding/json] serialises. *)
#[warnings="-register-all"]
Inductive json : Type :=
| JNull
| JBool (b : bool)
| JNum (n : Z)
| JStr (s : string)
| JArr (items : list json)
| JObj (fields : list (string * json)).

(** [*http.Request]: the method, the URL and the header (one value per
    key). *)
Record Request : Type := {
  Method : string;
  URL : string;
  Header : gmap string string
}.

(** [Header.Get]: the value of the key, or the empty string. *)
Definition Header_Get (h : gmap string string) (key : string) : string :=
  default "" (h !! key).

(** What is written to the body of a response: raw bytes, or one line
    produced by [json.NewEncoder(w).Encode(doc)]. *)
Inductive Body : Type :=
| Bytes (text : string)
| JSONLine (doc : json).

(** The calls received by an [http.ResponseWriter], in order. *)
Inductive ResponseCall : Type :=
| WriteHeader (status : Z)
| Write (body : Body).

(** The statuses passed to [WriteHeader], in call order. *)
Definition statuses (calls : list ResponseCall) : list Z :=
  omap (fun call => match call with
                    | WriteHeader st => Some st
                    | Write _ => None
                    end) calls.

(** The bodies passed to [Write], in call order. *)
Definition bodies (calls : list ResponseCall) : list Body :=
  omap (fun call => match call with
                    | WriteHeader _ => None
                    | Write b => Some b
                    end) calls.

End Http.

Module Raven.

(** [raven.StacktraceFrame]. *)
Record StacktraceFrame : Type := {
  Filename : string;
  Function : string;
  Lineno : Z;
  InApp : bool
}.

(** [raven.Stacktrace]. *)
Record Stacktrace : Type := { Frames : list StacktraceFrame }.

(** [raven.Exception]: the message of the error and an optional stack
    trace (a nil [*Stacktrace] is [None]). *)
Record Exception : Type := {
  Value : string;
  ExceptionStacktrace : option Stacktrace
}.

(** [raven.NewException(err, stacktrace)], given the text that
    [err.Error()] returned. *)
Definition NewException (msg : string) (st : option Stacktrace) : Exception :=
  {| Value := msg; ExceptionStacktrace := st |}.

(** The values of [raven.Interface] that the middleware builds. *)
Inductive Interface : Type :=
| IException (e : Exception)
| IExceptions (Values : list Exception)
| IMessage (Message : string)
| IHttp (req : Http.Request).

(** [raven.NewHttp(req)]. *)
Definition NewHttp (req : Http.Request) : Interface := IHttp req.

(** [raven.Packet]: the top-level message and the attached interfaces. *)
Record Packet : Type := {
  Message : string;
  Interfaces : list Interface
}.

(** [raven.NewPacket(message, interfaces...)]. *)
Definition NewPacket (message : string) (interfaces : list Interface) : Packet :=
  {| Message := message; Interfaces := interfaces |}.

End Raven.

(** ** Package buffalo: errors.go *)

Module Buffalo.

(** [errors.Frame] is a [uintptr]: a program counter plus one. *)
Definition Frame : Type := Z.

(** [errors.StackTrace] is a slice of frames, innermost call first. *)
Definition StackTrace : Type := list Frame.

(** Dynamic error values.

    [HTTPError] is the struct of errors.go; its [CausedBy] field is an
    [error] and may be nil.

    [Foreign msg trace cause] stands for a value of any other error type:
    [msg] is what its [Error()] method returns; [trace] is [Some st] when
    the type has a [StackTrace()] method (returning [st]); [cause] is
    [Some c] when the type has a [Cause()] method (returning the error
    [c], possibly nil). *)
#[warnings="-register-all"]
Inductive errval : Type :=
| HTTPError (Status : Z) (CausedBy : option errval)
| Foreign (msg : string) (trace : option StackTrace)
    (cause : option (option errval)).

(** The Go interface type [error]. *)
Definition error : Type := option errval.

(** [e.(Causer)]: does the dynamic type have a [Cause() error] method? *)
Definition implements_Causer (v : errval) : bool :=
  match v with
  | HTTPError _ _ => true
  | Foreign _ _ (Some _) => true
  | Foreign _ _ None => false
  end.

(** [e.(StackTracer)]: does the dynamic type have a [StackTrace()] method?
    [HTTPError] has none. *)
Definition implements_StackTracer (v : errval) : bool :=
  match v with
  | HTTPError _ _ => false
  | Foreign _ (Some _) _ => true
  | Foreign _ None _ => false
  end.

(** The two-valued type assertion [cause, ok := e.(Causer)].  When it
    fails, Go sets [cause] to the zero value of [Causer], the nil
    interface. *)
Definition assert_Causer (e : error) : error * bool :=
  match e with
  | Some v => if implements_Causer v then (Some v, true) else (None, false)
  | None => (None, false)
  end.

(** [func (h HTTPError) Cause() error], and the [Cause()] method of a
    foreign Causer. *)
Definition Cause (v : errval) : error :=
  match v with
  | HTTPError _ CausedBy => CausedBy
  | Foreign _ _ (Some c) => c
  | Foreign _ _ None => None
  end.

(** The [for ok] loop of [ErrorChain], entered with [ok = true] and the
    non-nil Causer [cause]:
    [causeChain = append(causeChain, cause.(error))] and then
    [cause, ok = cause.Cause().(Causer)].  It returns the slice and the
    final value of the variable [cause], which a failed assertion has set
    to nil.  The recursion is on the error value; [ErrorChain_for_step]
    below restates the body with [Cause] and [assert_Causer]. *)
Fixpoint ErrorChain_for (causeChain : list errval) (cause : errval)
  {struct cause} : list errval * error :=
  let causeChain := causeChain ++ [cause] in
  match cause with
  | HTTPError _ (Some next) | Foreign _ _ (Some (Some next)) =>
      if implements_Causer next then ErrorChain_for causeChain next
      else (causeChain, None)
  | HTTPError _ None | Foreign _ _ (Some None) | Foreign _ _ None =>
      (causeChain, None)
  end.

(** [func ErrorChain(e error) []error]. *)
Definition ErrorChain (e : error) : list errval :=
  let '(cause, ok) := assert_Causer e in
  let '(causeChain, cause) :=
    match cause, ok with
    | Some c, true => ErrorChain_for [] c
    | _, _ => ([], cause)
    end in
  (* if cause != nil { causeChain = append(causeChain, cause.(error)) } *)
  match cause with
  | Some c => causeChain ++ [c]
  | None => causeChain
  end.

(** ** Dynamic values, panics and the world *)

(** The dynamic values of [interface{}] that the model tells apart: the
    values kept in a request context and the values carried by a panic.
    [VRuntimeError] is a [runtime.Error] raised by the Go runtime. *)
Inductive value : Type :=
| VString (s : string)
| VInt (n : Z)
| VBool (b : bool)
| VError (e : errval)
| VRuntimeError (text : string).

(** The result of running Go code: it returns, or it panics with a
    value.  A panic in flight carries a non-nil value, so that what
    [recover()] yields is non-nil exactly while panicking; this is the
    behaviour of Go 1.21 and later, where [panic(nil)] raises a
    [*runtime.PanicNilError].  Under older runtimes [panic(nil)] makes
    [recover()] yield nil, a case the model leaves out. *)
Inductive outcome (A : Type) : Type :=
| Returned (a : A)
| Panicked (v : value).
Arguments Returned {A} a.
Arguments Panicked {A} v.

(** The runtime panics that the two files can raise. *)
Definition nil_dereference : value :=
  VRuntimeError "runtime error: invalid memory address or nil pointer dereference".
Definition index_out_of_range : value :=
  VRuntimeError "runtime error: index out of range".
(** The text of the real panic also names the dynamic type found. *)
Definition not_a_string : value :=
  VRuntimeError "interface conversion: interface {} is not string".

(** Everything outside the program that the two files write to. *)
Record World : Type := {
  response : list Http.ResponseCall;   (* calls on c.Response() *)
  logged : list error;                 (* c.Logger().Error(...) *)
  captured : list Raven.Packet;        (* raven.Capture(...) *)
  stdout : list string                 (* fmt.Println(...) *)
}.

(** Go code with effects: a state monad over the world whose result may
    be a panic. *)
Definition M (A : Type) : Type := World -> outcome A * World.

Definition ret {A} (a : A) : M A := fun w => (Returned a, w).

Definition bind {A B} (m : M A) (k : A -> M B) : M B :=
  fun w => match m w with
           | (Returned a, w') => k a w'
           | (Panicked v, w') => (Panicked v, w')
           end.

Definition panic {A} (v : value) : M A := fun w => (Panicked v, w).

(** Pure code that may panic, run inside [M]. *)
Definition lift {A} (o : outcome A) : M A := fun w => (o, w).

Declare Scope go_scope.
Delimit Scope go_scope with go.
Notation "x <- m ;; k" := (bind m (fun x => k))
  (at level 100, m at next level, right associativity) : go_scope.
Notation "m ;;; k" := (bind m (fun _ => k))
  (at level 100, right associativity) : go_scope.

(** [obind] for pure code that may panic. *)
Definition and_then {A B} (o : outcome A) (k : A -> outcome B) : outcome B :=
  match o with
  | Returned a => k a
  | Panicked v => Panicked v
  end.

(** A function with one deferred closure: [body] runs, then the
    deferred closure [deferred] runs with what [recover()] will yield
    in it: nil when [body] returned, the panic value otherwise.  If the
    closure returns after a recovered panic, the function returns
    [zero]; if the closure panics, that panic leaves the function. *)
Definition defer {A} (zero : A) (deferred : option value -> M unit)
  (body : M A) : M A :=
  fun w =>
    match body w with
    | (Returned a, w1) =>
        match deferred None w1 with
        | (Returned _, w2) => (Returned a, w2)
        | (Panicked v, w2) => (Panicked v, w2)
        end
    | (Panicked r, w1) =>
        match deferred (Some r) w1 with
        | (Returned _, w2) => (Returned zero, w2)
        | (Panicked v, w2) => (Panicked v, w2)
        end
    end.

(** [c.Response().WriteHeader(status)]. *)
Definition WriteHeader (status : Z) : M unit :=
  fun w => (Returned tt,
            {| response := response w ++ [Http.WriteHeader status];
               logged := logged w; captured := captured w; stdout := stdout w |}).

(** [c.Response().Write(body)]; [failure] is the error that the
    underlying writer reports for this request. *)
Definition Write (failure : error) (body : Http.Body) : M error :=
  fun w => (Returned failure,
            {| response := response w ++ [Http.Write body];
               logged := logged w; captured := captured w; stdout := stdout w |}).

(** [c.Logger().Error(err)]. *)
Definition Logger_Error (err : error) : M unit :=
  fun w => (Returned tt,
            {| response := response w; logged := logged w ++ [err];
               captured := captured w; stdout := stdout w |}).

(** [raven.Capture(packet, nil)]: the packet is handed to the client;
    the event id and the error channel are dropped by every caller. *)
Definition Capture (packet : Raven.Packet) : M unit :=
  fun w => (Returned tt,
            {| response := response w; logged := logged w;
               captured := captured w ++ [packet]; stdout := stdout w |}).

(** [fmt.Println(line)]. *)
Definition Println (line : string) : M unit :=
  fun w => (Returned tt,
            {| response := response w; logged := logged w;
               captured := captured w; stdout := stdout w ++ [line] |}).

(** ** The request context *)

(** [buffalo.Context], as far as the two files read it: the values
    behind [c.Get], the request, the map behind [c.Data()], and the
    error that writing to the response yields (nil when the write
    succeeds). *)
Record Context : Type := {
  values : gmap string value;
  Request : Http.Request;
  Data : gmap string value;
  write_failure : error
}.

(** [c.Get(key)]: an [interface{}], nil when the key is absent. *)
Definition Get (c : Context) (key : string) : option value := values c !! key.

(** [buffalo.Handler]. *)
Definition Handler : Type := Context -> M error.

(** ** Methods of error values *)

(** [err.Error()] on a dynamic value.
    [func (h HTTPError) Error() string { return h.CausedBy.Error() }]
    dereferences a nil interface when [CausedBy] is nil. *)
Fixpoint errval_Error (v : errval) : outcome string :=
  match v with
  | HTTPError _ (Some c) => errval_Error c
  | HTTPError _ None => Panicked nil_dereference
  | Foreign msg _ _ => Returned msg
  end.

(** [err.Error()] on an interface value. *)
Definition Error (e : error) : outcome string :=
  match e with
  | Some v => errval_Error v
  | None => Panicked nil_dereference
  end.

(** [tracer.StackTrace()] after a successful [item.(StackTracer)]. *)
Definition assert_StackTracer (v : errval) : option StackTrace :=
  match v with
  | HTTPError _ _ => None
  | Foreign _ trace _ => trace
  end.

(** ** defaultErrorHandler *)

(** [type ErrorStack struct]. *)
Record ErrorStack : Type := {
  Msg : string;
  Stack : string;
  HasStack : bool
}.

(** A double quote. *)
Definition dq : string := String (Ascii.ascii_of_nat 34) EmptyString.

Definition devErrorTmpl : string :=
"
<html>
<head>
	<title>{{status}} - ERROR!</title>
	<style>
		body {
			font-family: helvetica;
		}
		table {
			width: 100%;
		}
		th {
			text-align: left;
		}
		tr:nth-child(even) {
		  background-color: #dddddd;
		}
		td {
			margin: 0px;
			padding: 10px;
		}
		pre {
			display: block;
			padding: 9.5px;
			margin: 0 0 10px;
			font-size: 13px;
			line-height: 1.42857143;
			color: #333;
			word-break: break-all;
			word-wrap: break-word;
			background-color: #f5f5f5;
			border: 1px solid #ccc;
			border-radius: 4px;
		}
	</style>
</head>
<body>
<h1>{{status}} - ERROR!</h1>
{{#each errors as |error|}}
<pre>{{ error.Msg }}</pre>
{{#if error.HasStack }}
<pre>{{ error.Stack }}</pre>
{{/if}}
{{/each}}
<hr>
<h3>Context</h3>
<pre>{{#each data as |k v|}}
{{inspect k}}: {{inspect v}}
{{/each}}</pre>
<hr>
<h3>Routes</h3>
<table id=" +:+ dq +:+
"buffalo-routes-table" +:+ dq +:+
">
	<thead>
		<tr>
			<th>METHOD</th>
			<th>PATH</th>
			<th>HANDLER</th>
		</tr>
	</thead>
	<tbody>
		{{#each routes as |route|}}
			<tr>
				<td>{{route.Method}}</td>
				<td>{{route.Path}}</td>
				<td><code>{{route.HandlerName}}</code></td>
			</tr>
		{{/each}}
	</tbody>
</table>
</body>
</html>
".

Definition prodErrorTmpl : string :=
"
<h1>We're Sorry!</h1>
<p>
It looks like something went wrong! Don't worry, we are aware of the problem and are looking into it.
</p>
<p>
Sorry if this has caused you any problems. Please check back again later.
</p>
".

(** [strings.ToLower] on one byte and on a string of ASCII bytes.  Go
    also lowers the letters outside ASCII; the model agrees with it on
    content types made of ASCII bytes. *)
Definition lower_byte (a : Ascii.ascii) : Ascii.ascii :=
  let n := Ascii.nat_of_ascii a in
  if (Nat.leb 65 n && Nat.leb n 90)%bool then Ascii.ascii_of_nat (n + 32)
  else a.

Fixpoint ToLower (s : string) : string :=
  match s with
  | EmptyString => EmptyString
  | String a rest => String (lower_byte a) (ToLower rest)
  end.

(** The in-place reversal of [eStacks]:
    [for i := len(eStacks)/2 - 1; i >= 0; i--], with [k = i + 1] the
    number of iterations left.  An index outside the slice panics. *)
Fixpoint reverse_loop {A} (k : nat) (s : list A) : outcome (list A) :=
  match k with
  | O => Returned s
  | S i =>
      let opp := (length s - 1 - i)%nat in
      match s !! opp, s !! i with
      | Some x_opp, Some x_i =>
          reverse_loop i (<[opp := x_i]> (<[i := x_opp]> s))
      | _, _ => Panicked index_out_of_range
      end
  end.

Definition reverse_in_place {A} (s : list A) : outcome (list A) :=
  reverse_loop (length s / 2)%nat s.

(** How [encoding/json] sees an [ErrorStack] (fields in declaration
    order) and a [[]ErrorStack] (a nil slice is [null]). *)
Definition json_of_ErrorStack (r : ErrorStack) : Http.json :=
  Http.JObj [("Msg", Http.JStr (Msg r));
             ("Stack", Http.JStr (Stack r));
             ("HasStack", Http.JBool (HasStack r))].

Definition json_of_eStacks (eStacks : list ErrorStack) : Http.json :=
  match eStacks with
  | [] => Http.JNull
  | _ => Http.JArr (map json_of_ErrorStack eStacks)
  end.

(** The document of the JSON branch,
    [map[string]interface{}{"errors": eStacks, "code": status}];
    [encoding/json] writes the keys of a map in sorted order. *)
Definition error_document (eStacks : list ErrorStack) (status : Z) : Http.json :=
  Http.JObj [("code", Http.JNum status); ("errors", json_of_eStacks eStacks)].

(** The data handed to the template of the default branch. *)
Record TemplateData : Type := {
  td_routes : option value;
  td_errors : list ErrorStack;
  td_status : Z;
  td_data : gmap string value
}.

(** The library functions that errors.go calls and whose code is not
    part of the repository. *)
Class Libraries : Type := {
  (* github.com/pkg/errors: the "%+v" text of one Frame *)
  frame_text : Frame -> string;
  (* github.com/pkg/errors: WithStack *)
  errors_WithStack : errval -> errval;
  (* github.com/gobuffalo/velvet: Render(template, NewContextWith(data)),
     the rendered text or the error *)
  velvet_Render : string -> TemplateData -> string + errval
}.

Section Handler.
Context {libs : Libraries}.

(** A line feed. *)
Definition nl : string := String (Ascii.ascii_of_nat 10) EmptyString.

(** [fmt.Sprintf("%+v", st)] for an [errors.StackTrace]: its [Format]
    method writes, for each frame in order, a line feed and then the
    "%+v" text of the frame. *)
Definition Sprintf_StackTrace (st : StackTrace) : string :=
  foldr (fun f rest => nl +:+ frame_text f +:+ rest) "" st.

(** The body of the [range errorSlice] loop: the record of one entry. *)
Definition newErrorStack (item : errval) : outcome ErrorStack :=
  match assert_StackTracer item with
  | Some st =>
      let stack := Sprintf_StackTrace st in
      and_then (errval_Error item) (fun msg =>
      Returned {| Msg := msg; Stack := stack; HasStack := true |})
  | None =>
      and_then (errval_Error item) (fun msg =>
      Returned {| Msg := msg; Stack := ""; HasStack := false |})
  end.

(** [for _, item := range errorSlice { ...; eStacks = append(eStacks, eStack) }]. *)
Fixpoint eStacks_loop (errorSlice : list errval) (eStacks : list ErrorStack)
  : outcome (list ErrorStack) :=
  match errorSlice with
  | [] => Returned eStacks
  | item :: rest =>
      and_then (newErrorStack item) (fun eStack =>
      eStacks_loop rest (eStacks ++ [eStack]))
  end.

(** [env != nil && env.(string) == "production"]: the one-valued type
    assertion panics on a non-nil value that is not a string. *)
Definition is_production (env : option value) : outcome bool :=
  match env with
  | None => Returned false
  | Some (VString s) => Returned (bool_decide (s = "production"))
  | Some _ => Panicked not_a_string
  end.

(** The three groups of the [switch strings.ToLower(ct)]. *)
Inductive ContentKind : Type := KindJSON | KindXML | KindDefault.

Definition content_kind (ct : string) : ContentKind :=
  let l := ToLower ct in
  if bool_decide (l = "application/json") || bool_decide (l = "text/json")
     || bool_decide (l = "json") then KindJSON
  else if bool_decide (l = "application/xml") || bool_decide (l = "text/xml")
     || bool_decide (l = "xml") then KindXML
  else KindDefault.

(** The production branch (lines 89-91). *)
Definition production_path (status : Z) (c : Context) : M error :=
  (WriteHeader status ;;;
   _ <- Write (write_failure c) (Http.Bytes prodErrorTmpl) ;;
   ret None)%go.

(** The rest of the function (lines 93-149). *)
Definition developer_path (status : Z) (err : error) (c : Context) : M error :=
  (Logger_Error err ;;;
   WriteHeader status ;;;
   eStacks <- lift (eStacks_loop (ErrorChain err) []) ;;
   eStacks <- lift (reverse_in_place eStacks) ;;
   let ct := Http.Header_Get (Http.Header (Request c)) "Content-Type" in
   match content_kind ct with
   | KindJSON =>
       Write (write_failure c) (Http.JSONLine (error_document eStacks status))
   | KindXML => ret err
   | KindDefault =>
       let data := {| td_routes := Get c "routes"; td_errors := eStacks;
                      td_status := status; td_data := Data c |} in
       match velvet_Render devErrorTmpl data with
       | inr render_err => ret (Some (errors_WithStack render_err))
       | inl t =>
           WriteHeader 404 ;;;
           Write (write_failure c) (Http.Bytes t)
       end
   end)%go.

(** [func defaultErrorHandler(status int, err error, c Context) error]. *)
Definition defaultErrorHandler (status : Z) (err : error) (c : Context) : M error :=
  (production <- lift (is_production (Get c "env")) ;;
   if production : bool then production_path status c
   else developer_path status err c)%go.

End Handler.

(** [type ErrorHandler func(int, error, Context) error]. *)
Definition ErrorHandler : Type := Z -> error -> Context -> M error.

(** [func (e ErrorHandlers) Get(status int) ErrorHandler], with
    [type ErrorHandlers map[int]ErrorHandler]: the handler registered
    for the status, or [defaultErrorHandler]. *)
Definition ErrorHandlers_Get {libs : Libraries} (e : gmap Z ErrorHandler)
  (status : Z) : ErrorHandler :=
  match e !! status with
  | Some eh => eh
  | None => defaultErrorHandler
  end.

(** The chain as the specification words it: start from the error; while
    the current error exposes a Cause relation whose next cause is not
    nil, move to that cause; the chain holds every error visited, the
    last one included. *)
Fixpoint ChainOf (v : errval) : list errval :=
  v :: match v with
       | HTTPError _ (Some next) | Foreign _ _ (Some (Some next)) => ChainOf next
       | HTTPError _ None | Foreign _ _ (Some None) | Foreign _ _ None => []
       end.

End Buffalo.

(** ** ErrorChain over error values with state

    The error values above are immutable trees.  In Go a [Cause()]
    method is code of the error's dynamic type: it may read and write
    program state.  Here [ErrorChain] is embedded a second time, from the
    same source lines, over error values [R] of any kind and a program
    state [S] that every [Cause()] call threads.  The loop may not end
    (a chain can be cyclic), so it takes fuel; [None] means that the fuel
    ran out before the loop ended. *)

Module Stateful.

Section ErrorChain.
Context {R S : Type}.

(** The method set of each error value: [Cause_of r] is [Some Cause_m]
    when the dynamic type of [r] has a [Cause()] method; [Cause_m s] runs
    it in the state [s] and gives the error returned (nil is [None]) and
    the state it leaves. *)
Variable Cause_of : R -> option (S -> option R * S).

(** A non-nil value of the interface type [Causer]: the error value and
    its [Cause()] method. *)
Definition Causer : Type := R * (S -> option R * S).

(** [cause, ok := e.(Causer)].  The variable [cause] is [None] (the nil
    interface) exactly when [ok] is false. *)
Definition assert_Causer (e : option R) : option Causer :=
  match e with
  | Some r =>
      match Cause_of r with
      | Some Cause_m => Some (r, Cause_m)
      | None => None
      end
  | None => None
  end.

(** The [for ok] loop (lines 41-44): while [cause] is a Causer, append it
    and assert [cause.Cause()] to be one.  It returns the slice, the
    final value of [cause] and the state. *)
Fixpoint ErrorChain_for (fuel : nat) (causeChain : list R)
  (cause : option Causer) (s : S) : option (list R * option Causer * S) :=
  match cause with
  | None => Some (causeChain, cause, s)
  | Some (r, Cause_m) =>
      match fuel with
      | O => None
      | Datatypes.S fuel' =>
          let causeChain := causeChain ++ [r] in
          let '(next, s') := Cause_m s in
          ErrorChain_for fuel' causeChain (assert_Causer next) s'
      end
  end.

(** [func ErrorChain(e error) []error] (lines 38-51). *)
Definition ErrorChain (fuel : nat) (e : option R) (s : S)
  : option (list R * S) :=
  match ErrorChain_for fuel [] (assert_Causer e) s with
  | Some (causeChain, cause, s') =>
      (* if cause != nil { causeChain = append(causeChain, cause.(error)) } *)
      Some (match cause with
            | Some (r, _) => causeChain ++ [r]
            | None => causeChain
            end, s')
  | None => None
  end.

(** The state after one call of the [Cause()] method of [r]. *)
Definition after_Cause (s : S) (r : R) : S :=
  match Cause_of r with
  | Some Cause_m => (Cause_m s).2
  | None => s
  end.

End ErrorChain.

(** The immutable error values as an instance: the state is trivial and
    [Cause()] reads the value. *)
Definition Cause_of_errval (v : Buffalo.errval)
  : option (unit -> Buffalo.error * unit) :=
  if Buffalo.implements_Causer v then Some (fun s => (Buffalo.Cause v, s))
  else None.

End Stateful.

(** ** Package middleware: sentry.go

    The file holds four copies of the middleware.  The first three are
    modelled as [Sentry1] (lines 1-81), [Sentry2] (lines 82-172, the copy
    that calls [buffalo.ErrorChain]) and [Sentry3] (lines 173-207).  The
    deferred closure is the same text in all four.  The error path of the
    fourth copy (lines 208-281) uses [packet], [trace], [frames] and
    [appPackagePrefixes] where no such name is declared, and is not
    modelled. *)

Module Middleware.
Import Buffalo.

(** The Go runtime and the library functions that sentry.go calls. *)
Class Runtime : Type := {
  (* fmt.Sprint of a recovered value *)
  fmt_Sprint : value -> string;
  (* the text printed for reflect.TypeOf(err) *)
  reflect_TypeOf : error -> string;
  (* runtime.FuncForPC: nil ([None]) when no function holds the pc *)
  Func : Type;
  runtime_FuncForPC : Z -> option Func;
  (* the FileLine method of runtime.Func *)
  Func_FileLine : Func -> Z -> string * Z;
  (* raven.NewStacktrace(skip, context, prefixes): the current stack *)
  raven_NewStacktrace : Z -> Z -> list string -> option Raven.Stacktrace;
  (* raven.NewStacktraceFrame(pc, file, line, context, prefixes): may be nil *)
  raven_NewStacktraceFrame :
    Z -> string -> Z -> Z -> list string -> option Raven.StacktraceFrame
}.

Section Sentry.
Context {rt : Runtime}.

(** The packet of the deferred closure:
    [NewPacket(rStr, NewException(errors.New(rStr), NewStacktrace(3, 3,
    prefixes)), NewHttp(c.Request()))] with [rStr := fmt.Sprint(r)];
    [errors.New(rStr).Error()] is [rStr]. *)
Definition panic_packet (prefixes : list string) (c : Context) (r : value)
  : Raven.Packet :=
  let rStr := fmt_Sprint r in
  Raven.NewPacket rStr
    [Raven.IException
       (Raven.NewException rStr (raven_NewStacktrace 3 3 prefixes));
     Raven.NewHttp (Request c)].

(** The deferred closure of every copy:
    [if r := recover(); r != nil { ...; Capture(packet, nil); panic(r) }]. *)
Definition report_panic (prefixes : list string) (c : Context)
  (r : option value) : M unit :=
  match r with
  | Some v =>
      let packet := panic_packet prefixes c v in
      (Capture packet ;;; panic v)%go
  | None => ret tt
  end.

(** [func pc(frame errors.Frame) uintptr]: [uintptr(frame) - 1] on
    64-bit words. *)
Definition pc (frame : Frame) : Z := (frame - 1) mod 2 ^ 64.

(** The frame loop of [buildSentryStackTrace]:
    [for i := len(trace) - 1; i >= 0; i--], with [k = i + 1]. *)
Fixpoint frames_loop (k : nat) (trace : StackTrace)
  (appPackagePrefixes : list string)
  (sentryFrames : list Raven.StacktraceFrame)
  : outcome (list Raven.StacktraceFrame) :=
  match k with
  | O => Returned sentryFrames
  | S i =>
      match trace !! i with
      | None => Panicked index_out_of_range
      | Some f =>
          match runtime_FuncForPC (pc f) with
          | None => frames_loop i trace appPackagePrefixes sentryFrames
          | Some fn =>
              let '(file, line) := Func_FileLine fn (pc f) in
              match raven_NewStacktraceFrame (pc f) file line 3
                      appPackagePrefixes with
              | Some frame =>
                  frames_loop i trace appPackagePrefixes
                    (sentryFrames ++ [frame])
              | None => frames_loop i trace appPackagePrefixes sentryFrames
              end
          end
      end
  end.

(** What one pass of the loop body appends for the trace entry [f]: the
    frame built for it, or nothing. *)
Definition reported_frame (prefixes : list string) (f : Frame)
  : option Raven.StacktraceFrame :=
  match runtime_FuncForPC (pc f) with
  | None => None
  | Some fn =>
      let '(file, line) := Func_FileLine fn (pc f) in
      raven_NewStacktraceFrame (pc f) file line 3 prefixes
  end.

(** *** Second copy (lines 82-172) *)

(** [func buildSentryStackTrace(err error, appPackagePrefixes []string)
    *raven.Stacktrace] (lines 142-167). *)
Definition buildSentryStackTrace (err : errval)
  (appPackagePrefixes : list string) : outcome (option Raven.Stacktrace) :=
  match assert_StackTracer err with
  | None => Returned None
  | Some trace =>
      and_then (frames_loop (length trace) trace appPackagePrefixes [])
        (fun sentryFrames =>
           Returned (Some {| Raven.Frames := sentryFrames |}))
  end.

(** The chain loop of [buildErrPacket]:
    [for i := len(chain) - 1; i >= 0; i--], with [k = i + 1]. *)
Fixpoint exceptions_loop (k : nat) (chain : list errval)
  (prefixes : list string) (Values : list Raven.Exception)
  : outcome (list Raven.Exception) :=
  match k with
  | O => Returned Values
  | S i =>
      match chain !! i with
      | None => Panicked index_out_of_range
      | Some e =>
          and_then (buildSentryStackTrace e prefixes) (fun st =>
          and_then (errval_Error e) (fun msg =>
          exceptions_loop i chain prefixes
            (Values ++ [Raven.NewException msg st])))
      end
  end.

(** [s[i]] for an [int] index. *)
Definition index {A} (s : list A) (i : Z) : outcome A :=
  if i <? 0 then Panicked index_out_of_range
  else match s !! Z.to_nat i with
       | Some x => Returned x
       | None => Panicked index_out_of_range
       end.

(** [func buildErrPacket(err error, prefixes []string, c buffalo.Context)
    *raven.Packet] (lines 120-140). *)
Definition buildErrPacket (err : error) (prefixes : list string)
  (c : Context) : outcome Raven.Packet :=
  let chain := ErrorChain err in
  and_then (exceptions_loop (length chain) chain prefixes []) (fun Values =>
  let sentryReports := [Raven.IExceptions Values] in
  let sentryReports := sentryReports ++ [Raven.NewHttp (Request c)] in
  and_then (index chain (Z.of_nat (length chain) - 1)) (fun last =>
  and_then (errval_Error last) (fun msg =>
  Returned {| Raven.Message := msg; Raven.Interfaces := sentryReports |}))).

(** [func Sentry(prefixes []string, panicsOnly bool) buffalo.MiddlewareFunc]
    (lines 97-118). *)
Definition Sentry2 (prefixes : list string) (panicsOnly : bool)
  (next : Handler) : Handler :=
  fun c =>
    defer None (report_panic prefixes c)
      (err <- next c ;;
       match panicsOnly, err with
       | false, Some _ =>
           packet <- lift (buildErrPacket err prefixes c) ;;
           Capture packet
       | _, _ => ret tt
       end ;;;
       ret err)%go.

(** *** First copy (lines 1-81) *)

(** [func buildSentryStackTrace(tracer stackTracer, appPackagePrefixes
    []string) *Stacktrace] (lines 57-76). *)
Definition buildSentryStackTrace1 (trace : StackTrace)
  (appPackagePrefixes : list string) : outcome Raven.Stacktrace :=
  and_then (frames_loop (length trace) trace appPackagePrefixes [])
    (fun sentryFrames => Returned {| Raven.Frames := sentryFrames |}).

(** [httpErr, ok := err.(buffalo.HTTPError)]: on failure [httpErr] is the
    zero [HTTPError]. *)
Definition assert_HTTPError (err : error) : errval * bool :=
  match err with
  | Some (HTTPError status cause) => (HTTPError status cause, true)
  | _ => (HTTPError 0 None, false)
  end.

(** The wrapped error of an [HTTPError].  This copy reads it as the field
    [httpErr.Cause]; errors.go names the field [CausedBy]. *)
Definition HTTPError_Cause (httpErr : errval) : error :=
  match httpErr with
  | HTTPError _ cause => cause
  | Foreign _ _ _ => None
  end.

(** [tracer, ok := err.(stackTracer)] on an interface value. *)
Definition assert_stackTracer (err : error) : option StackTrace :=
  match err with
  | Some v => assert_StackTracer v
  | None => None
  end.

(** [func Sentry(prefixes []string, panicsOnly bool) buffalo.MiddlewareFunc]
    (lines 22-55). *)
Definition Sentry1 (prefixes : list string) (panicsOnly : bool)
  (next : Handler) : Handler :=
  fun c =>
    defer None (report_panic prefixes c)
      (err <- next c ;;
       match panicsOnly, err with
       | false, Some _ =>
           let '(httpErr, ok) := assert_HTTPError err in
           let err := if ok then HTTPError_Cause httpErr else err in
           match assert_stackTracer err with
           | Some trace =>
               msg <- lift (Error err) ;;
               st <- lift (buildSentryStackTrace1 trace prefixes) ;;
               http_msg <- lift (errval_Error httpErr) ;;
               Capture (Raven.NewPacket msg
                          [Raven.IException
                             (Raven.NewException http_msg (Some st));
                           Raven.NewHttp (Request c)]) ;;;
               ret err
           | None =>
               Println (reflect_TypeOf err) ;;;
               msg <- lift (Error err) ;;
               msg' <- lift (Error err) ;;
               Capture (Raven.NewPacket msg
                          [Raven.IMessage msg'; Raven.NewHttp (Request c)]) ;;;
               ret err
           end
       | _, _ => ret err
       end)%go.

(** *** Third copy (lines 173-207) *)

(** [func Sentry(prefixes []string, panicsOnly bool) buffalo.MiddlewareFunc]
    (lines 187-207). *)
Definition Sentry3 (prefixes : list string) (panicsOnly : bool)
  (next : Handler) : Handler :=
  fun c =>
    defer None (report_panic prefixes c)
      (err <- next c ;;
       match panicsOnly, err with
       | false, Some _ =>
           msg <- lift (Error err) ;;
           msg' <- lift (Error err) ;;
           Capture (Raven.NewPacket msg
                      [Raven.IException
                         (Raven.NewException msg'
                            (raven_NewStacktrace 2 3 prefixes));
                       Raven.NewHttp (Request c)])
       | _, _ => ret tt
       end ;;;
       ret err)%go.

End Sentry.

End Middleware.

(** ** Concrete inputs

    Errors, requests and library behaviours on which the properties
    below are evaluated. *)

Module Examples.
Import Buffalo.

(** [errors.New("boom")] of the standard library: no [Cause], no
    [StackTrace]. *)
Definition boom : errval := Foreign "boom" None None.

(** [inner] is a plain error; [outer] is caused by [inner]. *)
Definition inner : errval := Foreign "inner" None None.
Definition outer : errval := Foreign "outer" None (Some (Some inner)).

(** The same two errors when the root cause also has a [Cause()] method,
    which returns nil. *)
Definition inner_causer : errval := Foreign "inner" None (Some None).
Definition outer_of_causer : errval :=
  Foreign "outer" None (Some (Some inner_causer)).

(** An error whose [StackTrace()] returns a trace without frames, and one
    with two frames. *)
Definition traced_empty : errval := Foreign "traced" (Some []) None.
Definition traced : errval := Foreign "traced" (Some [4198401; 4198501]) None.

(** [HTTPError{Status: 404, CausedBy: errors.New("boom")}]. *)
Definition not_found : errval := HTTPError 404 (Some boom).

(** Library behaviour for the handler: every frame prints as one fixed
    line, [WithStack] wraps with an empty trace, and the template engine
    returns the template text unchanged. *)
Definition libs : Libraries := {|
  frame_text := fun _ => "main.handler";
  errors_WithStack := fun e => Foreign "render" (Some []) (Some (Some e));
  velvet_Render := fun template _ => inl template
|}.

(** A template engine that fails. *)
Definition libs_render_fails : Libraries := {|
  frame_text := fun _ => "main.handler";
  errors_WithStack := fun e => Foreign "render" (Some []) (Some (Some e));
  velvet_Render := fun _ _ => inr (Foreign "render" None None)
|}.

(** Requests. *)
Definition request (content_type : option string) : Http.Request := {|
  Http.Method := "GET";
  Http.URL := "/";
  Http.Header := match content_type with
                 | Some ct => {[ "Content-Type" := ct ]}
                 | None => ∅
                 end
|}.

Definition context (env : option value) (content_type : option string)
  : Context := {|
  values := match env with
            | Some v => {[ "env" := v ]}
            | None => ∅
            end;
  Request := request content_type;
  Data := ∅;
  write_failure := None
|}.

(** Nothing written, logged, captured or printed yet. *)
Definition world0 : World :=
  {| response := []; logged := []; captured := []; stdout := [] |}.

(** A symbol table with two functions; [raven.NewStacktraceFrame] gives
    no frame for [runtime.goexit]. *)
Definition symbol (pc : Z) : option string :=
  if bool_decide (pc = 4198400) then Some "main.handler"
  else if bool_decide (pc = 4198500) then Some "runtime.goexit"
  else None.

Definition runtime : Middleware.Runtime := {|
  Middleware.fmt_Sprint := fun v =>
    match v with
    | VString s => s
    | VRuntimeError text => text
    | VError e => match errval_Error e with
                  | Returned s => s
                  | Panicked _ => "%!v(PANIC)"
                  end
    | VInt n => pretty n
    | VBool b => if b then "true" else "false"
    end;
  Middleware.reflect_TypeOf := fun e =>
    match e with
    | Some (HTTPError _ _) => "buffalo.HTTPError"
    | Some (Foreign _ _ _) => "*errors.errorString"
    | None => "<nil>"
    end;
  Middleware.Func := string;
  Middleware.runtime_FuncForPC := symbol;
  Middleware.Func_FileLine := fun _ _ => ("/app/main.go", 10);
  Middleware.raven_NewStacktrace := fun _ _ _ => None;
  Middleware.raven_NewStacktraceFrame := fun pc file line _ _ =>
    match symbol pc with
    | Some name =>
        if bool_decide (name = "runtime.goexit") then None
        else Some {| Raven.Filename := file; Raven.Function := name;
                     Raven.Lineno := line; Raven.InApp := false |}
    | None => None
    end
|}.

(** Wrapped handlers: one that returns a given error, one that panics. *)
Definition returns (err : error) : Handler := fun _ => ret err.
Definition panics (v : value) : Handler := fun _ => panic v.

(** Two error values, numbered 0 and 1, over a state that records
    whether error 0 has handed out its cause:
    [func (o *once) Cause() error { if o.used { return nil };
    o.used = true; return o.next }] for error 0, whose [next] is error 1;
    error 1 has a [Cause()] method that returns nil. *)
Definition once_Cause_of (r : nat) : option (bool -> option nat * bool) :=
  match r with
  | O => Some (fun used : bool =>
               (if used then None else Some 1%nat, true))
  | Datatypes.S O => Some (fun used : bool => (None, used))
  | _ => None
  end.

End Examples.

(** * Properties *)

Import Buffalo.

(** ** The causal chain extractor *)

Section ErrorChainFacts.

(** Induction along the caused-by relation. *)
Lemma errval_cause_ind (P : errval -> Prop) :
  (forall status, P (HTTPError status None)) ->
  (forall status next, P next -> P (HTTPError status (Some next))) ->
  (forall msg trace, P (Foreign msg trace None)) ->
  (forall msg trace, P (Foreign msg trace (Some None))) ->
  (forall msg trace next, P next -> P (Foreign msg trace (Some (Some next)))) ->
  forall v, P v.
Proof.
  intros Hh0 Hh Hp Hc0 Hc. fix IH 1. intros [status [next|]|msg trace [[next|]|]].
  - apply Hh, IH.
  - apply Hh0.
  - apply Hc, IH.
  - apply Hc0.
  - apply Hp.
Qed.

(** One turn of the loop, as the source writes it: append the current
    Causer, then [cause, ok = cause.Cause().(Causer)]. *)
Lemma ErrorChain_for_step causeChain cause :
  ErrorChain_for causeChain cause =
    let '(cause', ok) := assert_Causer (Cause cause) in
    match cause', ok with
    | Some next, true => ErrorChain_for (causeChain ++ [cause]) next
    | _, _ => (causeChain ++ [cause], cause')
    end.
Proof.
  destruct cause as [status [next|]|msg trace [[next|]|]]; simpl; try done;
    destruct (implements_Causer next); done.
Qed.

(** When the loop ends the variable [cause] is nil: the guarded append
    after the loop (lines 47-49) never runs. *)
Lemma ErrorChain_for_cause_nil cause : forall causeChain,
  (ErrorChain_for causeChain cause).2 = None.
Proof.
  induction cause using errval_cause_ind; intros causeChain; simpl; try done;
    destruct (implements_Causer cause); auto.
Qed.

(** The loop only appends to the slice it was given. *)
Lemma ErrorChain_for_app cause : forall causeChain,
  (ErrorChain_for causeChain cause).1 =
    causeChain ++ (ErrorChain_for [] cause).1.
Proof.
  induction cause using errval_cause_ind; intros causeChain; simpl; try done.
  - destruct (implements_Causer cause); [|done].
    rewrite (IHcause (causeChain ++ _)), (IHcause [_]).
    by rewrite <- app_assoc.
  - destruct (implements_Causer cause); [|done].
    rewrite (IHcause (causeChain ++ _)), (IHcause [_]).
    by rewrite <- app_assoc.
Qed.

(** A chain starts with the error it is the chain of. *)
Lemma ChainOf_head v : ChainOf v = v :: tail (ChainOf v).
Proof. by destruct v as [? [?|]|? ? [[?|]|]]. Qed.

(** A chain that stops at its first error has a single entry. *)
Lemma ChainOf_not_Causer v : implements_Causer v = false -> ChainOf v = [v].
Proof. by destruct v as [? [?|]|? ? [[?|]|]]. Qed.

(** The loop collects the current error and, of the errors behind it,
    those that implement [Causer]. *)
Lemma ErrorChain_for_filter cause :
  (ErrorChain_for [] cause).1 =
    cause :: filter (fun v => implements_Causer v) (tail (ChainOf cause)).
Proof.
  induction cause as [| status next IH | | | msg trace next IH]
    using errval_cause_ind; simpl; try done.
  all: destruct (implements_Causer next) eqn:Hnext; simpl.
  all: try rewrite ErrorChain_for_app, IH; simpl.
  all: rewrite (ChainOf_head next), filter_cons.
  all: case_decide as Hdec; rewrite Hnext in Hdec; try done.
  all: by rewrite (ChainOf_not_Causer next).
Qed.

(** What [ErrorChain] returns: the errors of the chain that implement
    [Causer], in chain order. *)
Lemma ErrorChain_filter v :
  ErrorChain (Some v) = filter (fun x => implements_Causer x) (ChainOf v).
Proof.
  unfold ErrorChain, assert_Causer.
  destruct (implements_Causer v) eqn:Hv.
  - pose proof (ErrorChain_for_cause_nil v []) as Hnil.
    pose proof (ErrorChain_for_filter v) as Hfil.
    destruct (ErrorChain_for [] v) as [chain cause]. simpl in *. subst.
    destruct v as [? [?|]|? ? [[?|]|]]; simpl in *; try done;
      rewrite filter_cons, decide_True by done; done.
  - destruct v as [? [?|]|? ? [[?|]|]]; simpl in *; try done.
Qed.

(** The chain ends in its terminal error; [ErrorChain] returns the whole
    chain when that error implements [Causer], and the chain without it
    otherwise. *)
Lemma ErrorChain_terminal v :
  exists t, last (ChainOf v) = Some t /\
    if implements_Causer t then ErrorChain (Some v) = ChainOf v
    else ErrorChain (Some v) ++ [t] = ChainOf v.
Proof.
  rewrite ErrorChain_filter.
  induction v as [status | status next IH | msg trace | msg trace
                 | msg trace next IH] using errval_cause_ind.
  1, 3, 4: by eexists.
  all: destruct IH as (t & Hlast & IH); exists t.
  all: change (ChainOf ?v) with (v :: ChainOf next).
  all: rewrite filter_cons, decide_True by done.
  all: split; [by rewrite (ChainOf_head next) in * |].
  all: destruct (implements_Causer t); simpl; by rewrite IH.
Qed.

(** The entries returned are an initial segment of the chain. *)
Lemma ErrorChain_prefix v : ErrorChain (Some v) `prefix_of` ChainOf v.
Proof.
  destruct (ErrorChain_terminal v) as (t & _ & H).
  destruct (implements_Causer t).
  - by rewrite H.
  - rewrite <- H. by apply prefix_app_r.
Qed.

(** C1, evaluated on the code.  A non-nil error without a Cause relation
    has the one-entry chain [[boom]], yet [ErrorChain] returns the empty
    slice for it; for [outer] caused by the plain error [inner] the chain
    has two entries, yet [ErrorChain] returns [[outer]] only, without the
    chain-terminal error. *)
Theorem ErrorChain_drops_plain_terminal :
  ChainOf Examples.boom = [Examples.boom] /\
  ErrorChain (Some Examples.boom) = [] /\
  ChainOf Examples.outer = [Examples.outer; Examples.inner] /\
  ErrorChain (Some Examples.outer) = [Examples.outer].
Proof. repeat split; reflexivity. Qed.

(** In general: when the chain-terminal error has no [Cause()] method,
    [ErrorChain] returns one entry less than the chain has, and the
    terminal error is the one left out. *)
Lemma ErrorChain_misses_plain_terminal v t :
  last (ChainOf v) = Some t -> implements_Causer t = false ->
  ErrorChain (Some v) ++ [t] = ChainOf v /\
  S (length (ErrorChain (Some v))) = length (ChainOf v) /\
  t ∉ ErrorChain (Some v).
Proof.
  intros Hlast Ht. destruct (ErrorChain_terminal v) as (t' & Hlast' & H).
  assert (t' = t) as -> by congruence. rewrite Ht in H.
  split; [done|]. split.
  - rewrite <- H, length_app. simpl. lia.
  - rewrite ErrorChain_filter, list_elem_of_filter. intros [Hc _].
    by rewrite Ht in Hc.
Qed.

(** When every error of the chain has a [Cause()] method (the last one
    returning nil), [ErrorChain] returns the whole chain. *)
Lemma ErrorChain_all_causers v t :
  last (ChainOf v) = Some t -> implements_Causer t = true ->
  ErrorChain (Some v) = ChainOf v.
Proof.
  intros Hlast Ht. destruct (ErrorChain_terminal v) as (t' & Hlast' & H).
  assert (t' = t) as -> by congruence. by rewrite Ht in H.
Qed.

End ErrorChainFacts.

(** ** The default error handler *)

Section HandlerFacts.
Context {libs : Libraries}.

(** *** The in-place reversal *)

(** After [k] swaps from the middle outwards, the [k] outermost entries
    on both sides are mirrored and the rest is untouched. *)
Lemma reverse_loop_spec {A} (k : nat) : forall s : list A,
  (2 * k <= length s)%nat ->
  exists r, reverse_loop k s = Returned r /\ length r = length s /\
    forall j, (j < length s)%nat ->
      r !! j = if decide (j < k \/ length s - k <= j)%nat
               then s !! (length s - 1 - j)%nat else s !! j.
Proof.
  induction k as [|i IH]; intros s Hk.
  - exists s. repeat split; [done..|]. intros j Hj.
    rewrite decide_False by lia. done.
  - simpl. set (opp := (length s - 1 - i)%nat).
    destruct (lookup_lt_is_Some_2 s opp) as [a Ha]; [lia|].
    destruct (lookup_lt_is_Some_2 s i) as [b Hb]; [lia|].
    rewrite Ha, Hb.
    set (s' := <[opp:=b]> (<[i:=a]> s)).
    assert (length s' = length s) as Hlen
      by (unfold s'; by rewrite !length_insert).
    destruct (IH s') as (r & Hr & Hrlen & Hlookup); [lia|].
    exists r. split; [done|]. split; [congruence|].
    intros j Hj. rewrite Hlookup by lia. rewrite Hlen. unfold s'.
    destruct (decide (j = i)) as [->|Hji].
    { rewrite decide_False, decide_True by lia.
      rewrite list_lookup_insert_ne by lia.
      rewrite list_lookup_insert_eq by lia. by rewrite <- Ha. }
    destruct (decide (j = opp)) as [->|Hjo].
    { rewrite decide_False, decide_True by lia.
      rewrite list_lookup_insert_eq by (rewrite length_insert; lia).
      rewrite <- Hb. f_equal. lia. }
    destruct (decide (j < i \/ length s - i <= j)%nat).
    + rewrite decide_True by lia.
      by rewrite !list_lookup_insert_ne by lia.
    + rewrite decide_False by lia.
      by rewrite !list_lookup_insert_ne by lia.
Qed.

(** The loop of lines 119-122 never indexes outside the slice and
    leaves it reversed. *)
Lemma reverse_in_place_reverse {A} (s : list A) :
  reverse_in_place s = Returned (reverse s).
Proof.
  unfold reverse_in_place.
  pose proof (Nat.div_mod_eq (length s) 2) as Hdiv.
  pose proof (Nat.mod_upper_bound (length s) 2) as Hmod.
  destruct (reverse_loop_spec (length s / 2) s) as (r & -> & Hlen & Hlookup);
    [lia|].
  f_equal. apply list_eq. intros j.
  destruct (decide (j < length s)%nat) as [Hj|Hj].
  - rewrite Hlookup, reverse_lookup by done.
    case_decide; f_equal; lia.
  - rewrite !lookup_ge_None_2; [done| |]; rewrite ?length_reverse; lia.
Qed.

(** *** The display records *)

(** Records are appended to the slice in the order of the chain. *)
Lemma eStacks_loop_app items : forall eStacks,
  eStacks_loop items eStacks =
    and_then (eStacks_loop items []) (fun rs => Returned (eStacks ++ rs)).
Proof.
  induction items as [|item items IH]; intros eStacks; simpl.
  - by rewrite app_nil_r.
  - destruct (newErrorStack item) as [r|v]; simpl; [|done].
    rewrite (IH (eStacks ++ [r])), (IH [r]).
    destruct (eStacks_loop items []); simpl; [|done].
    by rewrite <- app_assoc.
Qed.

(** Each record is built from its own chain entry alone. *)
Lemma eStacks_loop_Forall2 items : forall records,
  eStacks_loop items [] = Returned records ->
  Forall2 (fun item r => newErrorStack item = Returned r) items records.
Proof.
  induction items as [|item items IH]; intros records; simpl.
  - intros [= <-]. constructor.
  - destruct (newErrorStack item) as [r|v] eqn:Hr; simpl; [|done].
    rewrite eStacks_loop_app.
    destruct (eStacks_loop items []) as [rs|] eqn:Hrs; simpl; [|done].
    intros [= <-]. constructor; [done|]. by apply IH.
Qed.

(** The verbose text of a trace with at least one frame is not empty. *)
Lemma Sprintf_StackTrace_nonempty st : st <> [] -> Sprintf_StackTrace st <> "".
Proof. destruct st as [|f st]; [done|]. intros _. simpl. discriminate. Qed.

(** *** The two paths *)

(** Consecutive calls on the response. *)
Lemma app_two {A} (l : list A) a b : (l ++ [a]) ++ [b] = l ++ [a; b].
Proof. by rewrite <- app_assoc. Qed.

Lemma app_three {A} (l : list A) a b c :
  ((l ++ [a]) ++ [b]) ++ [c] = l ++ [a; b; c].
Proof. by rewrite <- !app_assoc. Qed.

(** Unfolding the handler and the effects it is made of. *)
Ltac run_handler :=
  unfold defaultErrorHandler, production_path, developer_path,
    bind, lift, ret, Logger_Error, WriteHeader, Write; simpl.

(** C2, as amended: when the "env" value of the context is the string
    "production", the handler writes the given status and the fixed
    generic template, whatever the error, and returns nil; when "env" is
    absent or is a string other than "production", the handler is the
    developer rendering path. *)
Theorem defaultErrorHandler_env (status : Z) (err : error) (c : Context)
  (w : World) :
  (Get c "env" = Some (VString "production") ->
   defaultErrorHandler status err c w =
     (Returned None,
      {| response := response w ++ [Http.WriteHeader status;
                                    Http.Write (Http.Bytes prodErrorTmpl)];
         logged := logged w; captured := captured w; stdout := stdout w |}))
  /\
  (Get c "env" = None \/
   (exists s, Get c "env" = Some (VString s) /\ s <> "production") ->
   defaultErrorHandler status err c w = developer_path status err c w).
Proof.
  split.
  - intros Henv. run_handler. rewrite Henv. simpl. by rewrite app_two.
  - intros [Henv | (s & Henv & Hs)]; unfold defaultErrorHandler, bind, lift;
      rewrite Henv; simpl; [done|].
    by rewrite bool_decide_eq_false_2.
Qed.

(** The developer path up to the [switch]: the error is logged, the
    status is written, and the records of the chain are reversed. *)
Lemma developer_path_run status err c w records :
  eStacks_loop (ErrorChain err) [] = Returned records ->
  developer_path status err c w =
    let w' := {| response := response w ++ [Http.WriteHeader status];
                 logged := logged w ++ [err];
                 captured := captured w; stdout := stdout w |} in
    let eStacks := reverse records in
    match content_kind
            (Http.Header_Get (Http.Header (Request c)) "Content-Type") with
    | KindJSON =>
        Write (write_failure c)
          (Http.JSONLine (error_document eStacks status)) w'
    | KindXML => (Returned err, w')
    | KindDefault =>
        match velvet_Render devErrorTmpl
                {| td_routes := Get c "routes"; td_errors := eStacks;
                   td_status := status; td_data := Data c |} with
        | inr render_err => (Returned (Some (errors_WithStack render_err)), w')
        | inl t =>
            (WriteHeader 404 ;;; Write (write_failure c) (Http.Bytes t))%go w'
        end
    end.
Proof.
  intros Hrecords. unfold developer_path, bind at 1 2 3 4, lift.
  simpl. rewrite Hrecords, reverse_in_place_reverse.
  destruct (content_kind _); [done..|]. by destruct (velvet_Render _ _).
Qed.

(** The JSON branch in general: one document holding the records in
    reverse chain order. *)
Lemma developer_json status err c w records :
  is_production (Get c "env") = Returned false ->
  content_kind (Http.Header_Get (Http.Header (Request c)) "Content-Type")
    = KindJSON ->
  eStacks_loop (ErrorChain err) [] = Returned records ->
  defaultErrorHandler status err c w =
    (Returned (write_failure c),
     {| response := response w ++
          [Http.WriteHeader status;
           Http.Write (Http.JSONLine (error_document (reverse records) status))];
        logged := logged w ++ [err];
        captured := captured w; stdout := stdout w |}).
Proof.
  intros Henv Hkind Hrecords.
  unfold defaultErrorHandler, bind, lift. rewrite Henv.
  rewrite (developer_path_run _ _ _ _ _ Hrecords). simpl. rewrite Hkind.
  unfold Write. simpl. by rewrite app_two.
Qed.

(** C3, evaluated on the code: in developer mode with a JSON content
    type, for [outer] caused by the plain error [inner], the document
    written holds the record of [outer] only; the record of the root
    cause [inner] is missing, because [ErrorChain] left it out. *)
Theorem json_document_misses_root :
  defaultErrorHandler 500 (Some Examples.outer)
    (Examples.context None (Some "application/json")) Examples.world0 =
  (Returned None,
   {| response :=
        [Http.WriteHeader 500;
         Http.Write (Http.JSONLine
           (Http.JObj
              [("code", Http.JNum 500);
               ("errors", Http.JArr
                  [Http.JObj [("Msg", Http.JStr "outer");
                              ("Stack", Http.JStr "");
                              ("HasStack", Http.JBool false)]])]))];
      logged := [Some Examples.outer]; captured := []; stdout := [] |}).
Proof. vm_compute. reflexivity. Qed.

(** When the root cause has a [Cause()] method too, the document is the
    one the claim describes: the record of [inner], then the record of
    [outer], and the status code. *)
Lemma json_document_two_causers :
  defaultErrorHandler 500 (Some Examples.outer_of_causer)
    (Examples.context None (Some "application/json")) Examples.world0 =
  (Returned None,
   {| response :=
        [Http.WriteHeader 500;
         Http.Write (Http.JSONLine
           (Http.JObj
              [("code", Http.JNum 500);
               ("errors", Http.JArr
                  [Http.JObj [("Msg", Http.JStr "inner");
                              ("Stack", Http.JStr "");
                              ("HasStack", Http.JBool false)];
                   Http.JObj [("Msg", Http.JStr "outer");
                              ("Stack", Http.JStr "");
                              ("HasStack", Http.JBool false)]])]))];
      logged := [Some Examples.outer_of_causer];
      captured := []; stdout := [] |}).
Proof. vm_compute. reflexivity. Qed.

(** C4, as amended: for every chain entry, the record built has HasStack
    false and empty trace text exactly when the entry has no
    [StackTrace()] method, and HasStack true with the verbose text of its
    trace exactly when it has one; that text is non-empty whenever the
    trace has at least one frame.  Each record depends on its own entry
    only. *)
Theorem eStacks_per_entry (items : list errval) (records : list ErrorStack) :
  eStacks_loop items [] = Returned records ->
  Forall2 (fun item r =>
    errval_Error item = Returned (Msg r) /\
    HasStack r = implements_StackTracer item /\
    match assert_StackTracer item with
    | None => HasStack r = false /\ Stack r = ""
    | Some st =>
        HasStack r = true /\ Stack r = Sprintf_StackTrace st /\
        (st <> [] -> Stack r <> "")
    end) items records.
Proof.
  intros Hloop. apply eStacks_loop_Forall2 in Hloop.
  eapply Forall2_impl; [exact Hloop|]. clear. intros item r.
  unfold newErrorStack.
  destruct item as [status cause | msg [st|] cause]; simpl.
  - destruct cause as [next|]; simpl; [|done].
    destruct (errval_Error next) as [m|]; simpl; [|done].
    intros [= <-]. done.
  - intros [= <-]. simpl. repeat split. apply Sprintf_StackTrace_nonempty.
  - intros [= <-]. done.
Qed.

(** C5, as amended: on the developer HTML path the handler first writes
    the status argument; when the template renders it then writes 404
    and the page, so 404 is the last status written whatever the status
    argument; when the template fails, only the status argument has been
    written and the wrapped failure is returned. *)
Theorem developer_html_statuses (status : Z) (err : error) (c : Context)
  (w : World) (records : list ErrorStack) :
  is_production (Get c "env") = Returned false ->
  content_kind (Http.Header_Get (Http.Header (Request c)) "Content-Type")
    = KindDefault ->
  eStacks_loop (ErrorChain err) [] = Returned records ->
  defaultErrorHandler status err c w =
    match velvet_Render devErrorTmpl
            {| td_routes := Get c "routes"; td_errors := reverse records;
               td_status := status; td_data := Data c |} with
    | inl t =>
        (Returned (write_failure c),
         {| response := response w ++
              [Http.WriteHeader status; Http.WriteHeader 404;
               Http.Write (Http.Bytes t)];
            logged := logged w ++ [err];
            captured := captured w; stdout := stdout w |})
    | inr render_err =>
        (Returned (Some (errors_WithStack render_err)),
         {| response := response w ++ [Http.WriteHeader status];
            logged := logged w ++ [err];
            captured := captured w; stdout := stdout w |})
    end.
Proof.
  intros Henv Hkind Hrecords.
  unfold defaultErrorHandler, bind, lift. rewrite Henv.
  rewrite (developer_path_run _ _ _ _ _ Hrecords). simpl. rewrite Hkind.
  destruct (velvet_Render _ _) as [t|render_err]; [|done].
  unfold bind, WriteHeader, Write. simpl. by rewrite app_three.
Qed.

End HandlerFacts.

(** *** The handler on concrete requests *)

(** C2 on a production request and on a request without "env". *)
Lemma defaultErrorHandler_env_witness :
  (Get (Examples.context (Some (VString "production")) None) "env"
     = Some (VString "production") /\
   defaultErrorHandler (libs := Examples.libs) 500 (Some Examples.boom)
     (Examples.context (Some (VString "production")) None) Examples.world0 =
     (Returned None,
      {| response := response Examples.world0 ++
           [Http.WriteHeader 500; Http.Write (Http.Bytes prodErrorTmpl)];
         logged := logged Examples.world0;
         captured := captured Examples.world0;
         stdout := stdout Examples.world0 |})) /\
  (Get (Examples.context None None) "env" = None /\
   defaultErrorHandler (libs := Examples.libs) 500 (Some Examples.boom)
     (Examples.context None None) Examples.world0 =
   developer_path (libs := Examples.libs) 500 (Some Examples.boom)
     (Examples.context None None) Examples.world0).
Proof.
  split; (split; [reflexivity|]).
  - apply (proj1 (defaultErrorHandler_env (libs := Examples.libs) 500
                    (Some Examples.boom)
                    (Examples.context (Some (VString "production")) None)
                    Examples.world0)).
    reflexivity.
  - apply (proj2 (defaultErrorHandler_env (libs := Examples.libs) 500
                    (Some Examples.boom) (Examples.context None None)
                    Examples.world0)).
    left. reflexivity.
Defined.

(** C2 as stated fails when "env" holds a value that is not a string:
    the value differs from "production", yet the handler panics in the
    type assertion of line 88, before anything is logged or written,
    while the developer path logs the error and writes the response. *)
Lemma defaultErrorHandler_env_not_string :
  let c := Examples.context (Some (VInt 1)) None in
  Get c "env" = Some (VInt 1) /\
  defaultErrorHandler (libs := Examples.libs) 500 (Some Examples.boom) c
    Examples.world0 = (Panicked not_a_string, Examples.world0) /\
  logged (developer_path (libs := Examples.libs) 500 (Some Examples.boom) c
            Examples.world0).2 = [Some Examples.boom] /\
  defaultErrorHandler (libs := Examples.libs) 500 (Some Examples.boom) c
    Examples.world0 <>
  developer_path (libs := Examples.libs) 500 (Some Examples.boom) c
    Examples.world0.
Proof.
  repeat split; try reflexivity. vm_compute. discriminate.
Qed.

(** C4 on a chain that mixes an entry with a trace and entries without. *)
Lemma eStacks_per_entry_witness :
  let items := [Examples.traced; Examples.boom; Examples.not_found] in
  let records :=
    [{| Msg := "traced";
        Stack := Sprintf_StackTrace (libs := Examples.libs) [4198401; 4198501];
        HasStack := true |};
     {| Msg := "boom"; Stack := ""; HasStack := false |};
     {| Msg := "boom"; Stack := ""; HasStack := false |}] in
  eStacks_loop (libs := Examples.libs) items [] = Returned records /\
  Forall2 (fun item r =>
    errval_Error item = Returned (Msg r) /\
    HasStack r = implements_StackTracer item /\
    match assert_StackTracer item with
    | None => HasStack r = false /\ Stack r = ""
    | Some st =>
        HasStack r = true /\
        Stack r = Sprintf_StackTrace (libs := Examples.libs) st /\
        (st <> [] -> Stack r <> "")
    end) items records.
Proof.
  split; [reflexivity|].
  apply (eStacks_per_entry (libs := Examples.libs)). reflexivity.
Defined.

(** C4 as stated fails for an entry whose [StackTrace()] returns a trace
    without frames: it exposes the Trace relation and its record has
    HasStack true, but the trace text is empty. *)
Lemma newErrorStack_empty_trace :
  implements_StackTracer Examples.traced_empty = true /\
  newErrorStack (libs := Examples.libs) Examples.traced_empty =
    Returned {| Msg := "traced"; Stack := ""; HasStack := true |}.
Proof. split; reflexivity. Qed.

(** C5 on a request without content type, with a template engine that
    renders and with one that fails. *)
Lemma developer_html_statuses_witness :
  let c := Examples.context None None in
  (defaultErrorHandler (libs := Examples.libs) 500 (Some Examples.not_found)
     c Examples.world0 =
   (Returned None,
    {| response := [Http.WriteHeader 500; Http.WriteHeader 404;
                    Http.Write (Http.Bytes devErrorTmpl)];
       logged := [Some Examples.not_found]; captured := []; stdout := [] |}))
  /\
  (defaultErrorHandler (libs := Examples.libs_render_fails) 500
     (Some Examples.not_found) c Examples.world0 =
   (Returned (Some (Foreign "render" (Some [])
                      (Some (Some (Foreign "render" None None))))),
    {| response := [Http.WriteHeader 500];
       logged := [Some Examples.not_found]; captured := []; stdout := [] |})).
Proof.
  split.
  - apply (developer_html_statuses (libs := Examples.libs) 500
             (Some Examples.not_found) (Examples.context None None)
             Examples.world0
             [{| Msg := "boom"; Stack := ""; HasStack := false |}]);
      reflexivity.
  - apply (developer_html_statuses (libs := Examples.libs_render_fails) 500
             (Some Examples.not_found) (Examples.context None None)
             Examples.world0
             [{| Msg := "boom"; Stack := ""; HasStack := false |}]);
      reflexivity.
Defined.

(** C5 as stated fails for the status 500: on the developer HTML path
    the statuses written to the response are 500 and then 404, so the
    first status the response receives is the status argument. *)
Lemma developer_html_writes_status_first :
  let c := Examples.context None None in
  Http.statuses
    (response (defaultErrorHandler (libs := Examples.libs) 500
                 (Some Examples.not_found) c Examples.world0).2)
    = [500; 404] /\
  head (Http.statuses
    (response (defaultErrorHandler (libs := Examples.libs) 500
                 (Some Examples.not_found) c Examples.world0).2))
    <> Some 404.
Proof. split; [reflexivity | vm_compute; discriminate]. Qed.

(** ** The Sentry middleware *)

Import Middleware.

Section SentryFacts.
Context {rt : Runtime}.

(** A panic that leaves the body of the handler, wherever it was raised,
    is reported once and raised again. *)
Lemma defer_report_panic {A} (zero : A) prefixes c (body : M A) w v w1 :
  body w = (Panicked v, w1) ->
  defer zero (report_panic prefixes c) body w =
    (Panicked v,
     {| response := response w1; logged := logged w1;
        captured := captured w1 ++ [panic_packet prefixes c v];
        stdout := stdout w1 |}).
Proof. intros Hbody. unfold defer. by rewrite Hbody. Qed.

(** A body that returns leaves through the closure untouched. *)
Lemma defer_report_return {A} (zero : A) prefixes c (body : M A) w a w1 :
  body w = (Returned a, w1) ->
  defer zero (report_panic prefixes c) body w = (Returned a, w1).
Proof. intros Hbody. unfold defer. by rewrite Hbody. Qed.

(** C6: when the wrapped handler panics with the value v, the middleware
    submits exactly one report, whose top-level message is the
    stringification of v, and then panics with v again; this holds for
    every copy of the middleware and for both values of panicsOnly. *)
Theorem Sentry_reraises_panic (prefixes : list string) (panicsOnly : bool)
  (next : Handler) (c : Context) (w w1 : World) (v : value) :
  next c w = (Panicked v, w1) ->
  let after :=
    (Panicked v,
     {| response := response w1; logged := logged w1;
        captured := captured w1 ++ [panic_packet prefixes c v];
        stdout := stdout w1 |}) in
  Raven.Message (panic_packet prefixes c v) = fmt_Sprint v /\
  Sentry1 prefixes panicsOnly next c w = after /\
  Sentry2 prefixes panicsOnly next c w = after /\
  Sentry3 prefixes panicsOnly next c w = after.
Proof.
  intros Hnext. split; [reflexivity|].
  repeat split; apply defer_report_panic; unfold bind; by rewrite Hnext.
Qed.

(** *** The frames of a trace *)

(** The loop walks the first [k] entries of the trace from the last one
    down to the first and never indexes outside the trace. *)
Lemma frames_loop_spec trace prefixes (k : nat) : forall sentryFrames,
  (k <= length trace)%nat ->
  frames_loop k trace prefixes sentryFrames =
    Returned (sentryFrames ++
              omap (reported_frame prefixes) (reverse (take k trace))).
Proof.
  induction k as [|i IH]; intros sentryFrames Hk; cbn [frames_loop].
  - by rewrite take_0, app_nil_r.
  - destruct (lookup_lt_is_Some_2 trace i) as [f Hf]; [lia|].
    unfold StackTrace in *.
    rewrite Hf, (take_S_r _ _ _ Hf), reverse_snoc.
    cbn [omap list_omap]. unfold reported_frame at 1.
    destruct (runtime_FuncForPC (pc f)) as [fn|]; [|apply IH; lia].
    destruct (Func_FileLine fn (pc f)) as [file line].
    destruct (raven_NewStacktraceFrame _ _ _ _ _) as [frame|].
    + rewrite IH by lia. by rewrite <- app_assoc.
    + apply IH. lia.
Qed.

(** C8, as amended: for a trace-bearing error the frame sequence is
    built without failure; it holds, in the reverse of the captured
    order, exactly one frame for every trace entry whose program counter
    resolves to a function and for which [raven.NewStacktraceFrame]
    returns a frame; every other entry is skipped silently. *)
Theorem buildSentryStackTrace_frames (err : errval) (trace : StackTrace)
  (prefixes : list string) :
  assert_StackTracer err = Some trace ->
  buildSentryStackTrace err prefixes =
    Returned (Some {| Raven.Frames :=
                        omap (reported_frame prefixes) (reverse trace) |}).
Proof.
  intros Htrace. unfold buildSentryStackTrace. rewrite Htrace.
  rewrite frames_loop_spec by done. by rewrite firstn_all.
Qed.

(** An error without a [StackTrace()] method gets no stack trace. *)
Lemma buildSentryStackTrace_none err prefixes :
  assert_StackTracer err = None ->
  buildSentryStackTrace err prefixes = Returned None.
Proof. intros Htrace. unfold buildSentryStackTrace. by rewrite Htrace. Qed.

(** *** The error path of the second copy *)

(** [chain[len(chain)-1]] is the last entry of the chain, and a panic
    when the chain is empty. *)
Lemma index_last {A} (chain : list A) :
  index chain (Z.of_nat (length chain) - 1) =
    match last chain with
    | Some x => Returned x
    | None => Panicked index_out_of_range
    end.
Proof.
  unfold index. destruct chain as [|x chain]; [done|].
  rewrite last_lookup. cbn [length].
  destruct (Z.ltb_spec (Z.of_nat (S (length chain)) - 1) 0) as [?|_]; [lia|].
  replace (Z.to_nat (Z.of_nat (S (length chain)) - 1))
    with (Init.Nat.pred (S (length chain))) by lia.
  destruct (lookup _ _) eqn:Hl; [done|].
  apply lookup_ge_None_1 in Hl. simpl in Hl. lia.
Qed.

(** The top-level message of the packet is the message of the last entry
    that [ErrorChain] returned. *)
Lemma buildErrPacket_Message err prefixes c p :
  buildErrPacket err prefixes c = Returned p ->
  exists l, last (ErrorChain err) = Some l /\
            errval_Error l = Returned (Raven.Message p).
Proof.
  unfold buildErrPacket. destruct (exceptions_loop _ _ _ _); [|done].
  cbn [and_then]. rewrite index_last.
  destruct (last (ErrorChain err)) as [l|]; [|done]. cbn [and_then].
  destruct (errval_Error l) as [msg|] eqn:Hmsg; [|done]. cbn [and_then].
  intros [= <-]. by exists l.
Qed.

(** No packet can be built from an empty chain. *)
Lemma buildErrPacket_empty_chain err prefixes c :
  ErrorChain err = [] ->
  buildErrPacket err prefixes c = Panicked index_out_of_range.
Proof. intros Hchain. unfold buildErrPacket. by rewrite Hchain. Qed.

(** In panics-only mode, or when the wrapped handler returns nil, nothing
    is submitted and the result of the handler is passed on. *)
Lemma Sentry2_no_report prefixes panicsOnly (next : Handler) c w err w1 :
  next c w = (Returned err, w1) ->
  panicsOnly = true \/ err = None ->
  Sentry2 prefixes panicsOnly next c w = (Returned err, w1).
Proof.
  intros Hnext Hquiet. apply defer_report_return.
  unfold bind. rewrite Hnext.
  by destruct Hquiet as [-> | ->]; [|destruct panicsOnly].
Qed.

(** When a packet can be built for the error, it is the one report
    submitted, and the error is passed on. *)
Lemma Sentry2_one_report prefixes (next : Handler) c w v w1 p :
  next c w = (Returned (Some v), w1) ->
  buildErrPacket (Some v) prefixes c = Returned p ->
  Sentry2 prefixes false next c w =
    (Returned (Some v),
     {| response := response w1; logged := logged w1;
        captured := captured w1 ++ [p]; stdout := stdout w1 |}).
Proof.
  intros Hnext Hp. apply defer_report_return.
  unfold bind, lift. by rewrite Hnext, Hp.
Qed.

(** X26: for every non-nil error without a [Cause()] method the second copy
    panics while building the packet: no report for the error is
    submitted, the panic is reported, and the error is not returned. *)
Lemma Sentry2_plain_error_panics prefixes (next : Handler) c w v w1 :
  next c w = (Returned (Some v), w1) ->
  implements_Causer v = false ->
  Sentry2 prefixes false next c w =
    (Panicked index_out_of_range,
     {| response := response w1; logged := logged w1;
        captured := captured w1 ++
                    [panic_packet prefixes c index_out_of_range];
        stdout := stdout w1 |}).
Proof.
  intros Hnext Hv. apply defer_report_panic.
  unfold bind, lift. rewrite Hnext.
  rewrite buildErrPacket_empty_chain; [done|].
  rewrite ErrorChain_filter, (ChainOf_not_Causer v Hv), filter_cons.
  case_decide as Hdec; [by rewrite Hv in Hdec | done].
Qed.

(** C7, evaluated on the code (second copy, panicsOnly false).  For the
    plain error [boom] no report for the error is submitted: building
    the packet panics on [chain[len(chain)-1]], the only report is the
    one for that panic, and the middleware panics.  For [outer] caused by
    the plain error [inner] one report is submitted, but its top-level
    message is the message of [outer], not that of the root [inner]. *)
Theorem Sentry2_report_misses_root :
  let c := Examples.context None None in
  Sentry2 [] false (Examples.returns (Some Examples.boom)) c Examples.world0 =
    (Panicked index_out_of_range,
     {| response := []; logged := [];
        captured := [panic_packet [] c index_out_of_range];
        stdout := [] |}) /\
  Sentry2 [] false (Examples.returns (Some Examples.outer)) c Examples.world0 =
    (Returned (Some Examples.outer),
     {| response := []; logged := [];
        captured :=
          [{| Raven.Message := "outer";
              Raven.Interfaces :=
                [Raven.IExceptions [Raven.NewException "outer" None];
                 Raven.NewHttp (Request c)] |}];
        stdout := [] |}) /\
  last (ChainOf Examples.outer) = Some Examples.inner /\
  errval_Error Examples.inner = Returned "inner".
Proof. repeat split; reflexivity. Qed.

(** *** What the middleware returns *)

(** The third copy passes the error on whenever its message can be
    read. *)
Lemma Sentry3_returns_error prefixes panicsOnly (next : Handler) c w err w1 msg :
  next c w = (Returned err, w1) ->
  Error err = Returned msg ->
  (Sentry3 prefixes panicsOnly next c w).1 = Returned err.
Proof.
  intros Hnext Hmsg. unfold Sentry3, defer, bind, lift. rewrite Hnext.
  destruct panicsOnly, err; try done; by rewrite Hmsg.
Qed.

(** C10, evaluated on the code.  Second copy: the wrapped handler returns
    the plain error [boom] and the middleware panics instead of returning
    it.  First copy: the wrapped handler returns an HTTPError with status
    404 and the middleware returns the error wrapped in it, not the
    HTTPError. *)
Theorem Sentry_error_not_passed_on :
  let c := Examples.context None None in
  (Sentry2 [] false (Examples.returns (Some Examples.boom)) c
     Examples.world0).1 = Panicked index_out_of_range /\
  (Sentry1 [] false (Examples.returns (Some Examples.not_found)) c
     Examples.world0).1 = Returned (Some Examples.boom) /\
  Some Examples.boom <> Some Examples.not_found.
Proof. repeat split; try reflexivity. discriminate. Qed.

End SentryFacts.

(** *** The middleware on concrete requests *)

(** C6 on a handler that panics with the string "boom". *)
Lemma Sentry_reraises_panic_witness :
  let c := Examples.context None None in
  let after :=
    (Panicked (VString "boom"),
     {| response := []; logged := [];
        captured := [panic_packet (rt := Examples.runtime) [] c
                       (VString "boom")];
        stdout := [] |}) in
  Examples.panics (VString "boom") c Examples.world0 =
    (Panicked (VString "boom"), Examples.world0) /\
  Raven.Message (panic_packet (rt := Examples.runtime) [] c (VString "boom"))
    = "boom" /\
  Sentry1 (rt := Examples.runtime) [] false
    (Examples.panics (VString "boom")) c Examples.world0 = after /\
  Sentry2 (rt := Examples.runtime) [] false
    (Examples.panics (VString "boom")) c Examples.world0 = after /\
  Sentry3 (rt := Examples.runtime) [] false
    (Examples.panics (VString "boom")) c Examples.world0 = after.
Proof.
  split; [reflexivity|].
  exact (Sentry_reraises_panic (rt := Examples.runtime) [] false
           (Examples.panics (VString "boom")) (Examples.context None None)
           Examples.world0 Examples.world0 (VString "boom") eq_refl).
Defined.

(** C8 on a trace of two frames. *)
Lemma buildSentryStackTrace_frames_witness :
  assert_StackTracer Examples.traced = Some [4198401; 4198501] /\
  buildSentryStackTrace (rt := Examples.runtime) Examples.traced [] =
    Returned (Some {| Raven.Frames :=
      omap (reported_frame (rt := Examples.runtime) [])
           (reverse [4198401; 4198501]) |}).
Proof.
  split; [reflexivity|].
  apply (buildSentryStackTrace_frames (rt := Examples.runtime)).
  reflexivity.
Defined.

(** C8 as stated fails on a trace whose two program counters both
    resolve to a function: [raven.NewStacktraceFrame] returns nil for the
    frame of [runtime.goexit], the guard of line 162 skips it, and one
    frame is emitted for two resolvable ones. *)
Lemma buildSentryStackTrace_skips_resolvable_frame :
  assert_StackTracer Examples.traced = Some [4198401; 4198501] /\
  runtime_FuncForPC (Runtime := Examples.runtime) (pc 4198401)
    = Some "main.handler" /\
  runtime_FuncForPC (Runtime := Examples.runtime) (pc 4198501)
    = Some "runtime.goexit" /\
  buildSentryStackTrace (rt := Examples.runtime) Examples.traced [] =
    Returned (Some {| Raven.Frames :=
      [{| Raven.Filename := "/app/main.go"; Raven.Function := "main.handler";
          Raven.Lineno := 10; Raven.InApp := false |}] |}).
Proof. repeat split; reflexivity. Qed.

(** * Further properties of the code *)

(** ** ErrorHandlers.Get *)

Section ErrorHandlersFacts.
Context {libs : Libraries}.

(** X1: registering a handler for a status makes [Get] return it for
    that status and changes nothing for any other status; removing the
    registration brings the default handler back when none was there
    before; with no registration [Get] returns the default handler. *)
Theorem ErrorHandlers_Get_register (e : gmap Z ErrorHandler) (status : Z)
  (eh : ErrorHandler) (other : Z) :
  ErrorHandlers_Get (<[status := eh]> e) other =
    (if decide (status = other) then eh else ErrorHandlers_Get e other) /\
  ErrorHandlers_Get (delete status (<[status := eh]> e)) other =
    (if decide (status = other) then defaultErrorHandler
     else ErrorHandlers_Get e other) /\
  ErrorHandlers_Get ∅ other = defaultErrorHandler.
Proof.
  unfold ErrorHandlers_Get. split; [|split].
  - rewrite lookup_insert. by case_decide.
  - rewrite lookup_delete. case_decide; [done|].
    by rewrite lookup_insert_ne.
  - by rewrite lookup_empty.
Qed.

End ErrorHandlersFacts.

(** ** More on the causal chain *)

Section ErrorChainMore.

(** An error without a [Cause()] method yields the empty slice. *)
Lemma ErrorChain_not_Causer v :
  implements_Causer v = false -> ErrorChain (Some v) = [].
Proof.
  intros Hv. rewrite ErrorChain_filter, (ChainOf_not_Causer v Hv), filter_cons.
  case_decide as Hdec; [by rewrite Hv in Hdec | done].
Qed.

(** An error with a [Cause()] method is the first entry. *)
Lemma ErrorChain_Causer_head v :
  implements_Causer v = true ->
  ErrorChain (Some v) =
    v :: filter (fun x => implements_Causer x) (tail (ChainOf v)).
Proof.
  intros Hv. rewrite ErrorChain_filter, (ChainOf_head v) at 1.
  rewrite filter_cons. case_decide as Hdec; [done|]. by rewrite Hv in Hdec.
Qed.

(** In the chain every entry is followed by its cause. *)
Lemma ChainOf_linked v : forall i a b,
  ChainOf v !! i = Some a -> ChainOf v !! S i = Some b -> Cause a = Some b.
Proof.
  induction v as [status | status next IH | msg trace | msg trace
                 | msg trace next IH] using errval_cause_ind;
    intros i a b Ha Hb.
  1, 3, 4: by destruct i.
  all: change (ChainOf ?v) with (v :: ChainOf next) in Ha, Hb.
  all: destruct i as [|i]; [|by eapply IH].
  all: simpl in Ha, Hb; injection Ha as <-.
  all: rewrite (ChainOf_head next) in Hb; simpl in Hb.
  all: by injection Hb as <-.
Qed.

(** The chain-terminal error has no further cause. *)
Lemma ChainOf_last_Cause v t : last (ChainOf v) = Some t -> Cause t = None.
Proof.
  revert t.
  induction v as [status | status next IH | msg trace | msg trace
                 | msg trace next IH] using errval_cause_ind; intros t.
  1, 3, 4: by intros [= <-].
  all: change (ChainOf ?v) with (v :: ChainOf next).
  all: rewrite (ChainOf_head next), last_cons_cons, <- (ChainOf_head next).
  all: apply IH.
Qed.

(** X2: for every error value, [ErrorChain] returns exactly the chain
    entries that have a [Cause()] method, in chain order; every entry
    returned has one, and nil yields the empty slice. *)
Theorem ErrorChain_only_causers (e : error) :
  Forall (fun v => implements_Causer v = true) (ErrorChain e) /\
  match e with
  | Some v => ErrorChain e = filter (fun x => implements_Causer x) (ChainOf v)
  | None => ErrorChain e = []
  end.
Proof.
  destruct e as [v|]; [|by split].
  split; [|apply ErrorChain_filter].
  rewrite ErrorChain_filter. apply Forall_forall. intros x Hx.
  apply list_elem_of_filter in Hx as [Hx _]. by apply Is_true_true.
Qed.

(** X3: [ErrorChain] returns the empty slice exactly for nil and for
    errors without a [Cause()] method; for an error that has one, the
    result is not empty and starts with the error itself. *)
Theorem ErrorChain_empty_or_head (e : error) :
  match e with
  | None => ErrorChain e = []
  | Some v =>
      if implements_Causer v
      then head (ErrorChain e) = Some v
      else ErrorChain e = []
  end.
Proof.
  destruct e as [v|]; [|done].
  destruct (implements_Causer v) eqn:Hv.
  - by rewrite ErrorChain_Causer_head.
  - by apply ErrorChain_not_Causer.
Qed.

(** X4: consecutive entries of the slice returned by [ErrorChain] are
    linked by the caused-by relation: each entry's [Cause()] is the
    entry that follows it. *)
Theorem ErrorChain_linked (e : error) (i : nat) (a b : errval) :
  ErrorChain e !! i = Some a ->
  ErrorChain e !! S i = Some b ->
  Cause a = Some b.
Proof.
  destruct e as [v|]; [|done]. intros Ha Hb.
  destruct (ErrorChain_prefix v) as [rest Hrest].
  apply (ChainOf_linked v i); rewrite Hrest; by apply lookup_app_l_Some.
Qed.

(** X5: when the chain-terminal error has a [Cause()] method (which then
    returns nil), [ErrorChain] returns the whole chain: as many entries
    as the chain has, the last one being the terminal error. *)
Theorem ErrorChain_whole_chain (v t : errval) :
  last (ChainOf v) = Some t ->
  implements_Causer t = true ->
  ErrorChain (Some v) = ChainOf v /\
  length (ErrorChain (Some v)) = length (ChainOf v) /\
  last (ErrorChain (Some v)) = Some t /\
  Cause t = None.
Proof.
  intros Hlast Ht.
  rewrite (ErrorChain_all_causers v t Hlast Ht).
  repeat split; [done|]. by eapply ChainOf_last_Cause.
Qed.

End ErrorChainMore.

(** ** More on the default error handler *)

Section HandlerMore.
Context {libs : Libraries}.

(** X6: the in-place reversal never indexes outside the slice, whatever
    its length; it returns the slice reversed, with the same length, and
    applying it twice gives the slice back. *)
Theorem reverse_in_place_involutive {A} (s : list A) :
  reverse_in_place s = Returned (reverse s) /\
  length (reverse s) = length s /\
  and_then (reverse_in_place s) reverse_in_place = Returned s.
Proof.
  rewrite reverse_in_place_reverse. cbn [and_then].
  rewrite reverse_in_place_reverse, reverse_involutive, length_reverse.
  done.
Qed.

(** Lowering a byte twice is lowering it once. *)
Lemma lower_byte_idempotent a : lower_byte (lower_byte a) = lower_byte a.
Proof. destruct a as [[] [] [] [] [] [] [] []]; reflexivity. Qed.

Lemma ToLower_idempotent s : ToLower (ToLower s) = ToLower s.
Proof.
  induction s as [|a s IH]; [done|]. simpl.
  by rewrite lower_byte_idempotent, IH.
Qed.

(** X11: the content type is matched without regard to ASCII letter
    case: a content type and its lower-case spelling select the same
    branch of the switch. *)
Theorem content_kind_ignores_case (ct : string) :
  content_kind (ToLower ct) = content_kind ct.
Proof. unfold content_kind. by rewrite ToLower_idempotent. Qed.

(** The records can be built when the message of every entry can be
    read; there is one record per entry. *)
Lemma eStacks_loop_returns items :
  Forall (fun item => exists msg, errval_Error item = Returned msg) items ->
  exists records, eStacks_loop items [] = Returned records /\
                  length records = length items.
Proof.
  induction 1 as [|item items [msg Hmsg] _ (records & Hrecords & Hlen)].
  - by exists [].
  - cbn [eStacks_loop]. unfold newErrorStack.
    destruct (assert_StackTracer item); rewrite Hmsg; cbn [and_then];
      rewrite eStacks_loop_app, Hrecords; cbn [and_then];
      eexists; (split; [done|]); simpl; by rewrite Hlen.
Qed.

(** Initial segments, for the response and the log. *)
Ltac solve_prefix :=
  first [reflexivity | apply prefix_app_r; solve_prefix].

(** Running the production path. *)
Ltac run_production :=
  unfold production_path, bind, lift, ret, WriteHeader, Write; simpl.

(** X13: whatever its arguments, and also when it panics, the default
    error handler submits nothing to Sentry and prints nothing; it only
    appends to the calls on the response and to the log. *)
Theorem defaultErrorHandler_frame (status : Z) (err : error) (c : Context)
  (w : World) :
  let w' := (defaultErrorHandler status err c w).2 in
  captured w' = captured w /\
  stdout w' = stdout w /\
  response w `prefix_of` response w' /\
  logged w `prefix_of` logged w'.
Proof.
  unfold defaultErrorHandler, bind, lift.
  destruct (is_production (Get c "env")) as [[|]|v]; [| |done].
  - run_production. repeat split; solve_prefix.
  - unfold developer_path, bind, lift, Logger_Error, WriteHeader. simpl.
    destruct (eStacks_loop _ _) as [records|v]; simpl;
      [|repeat split; solve_prefix].
    rewrite reverse_in_place_reverse.
    destruct (content_kind _); [| |destruct (velvet_Render _ _)];
      unfold Write, ret; simpl; repeat split; solve_prefix.
Qed.

(** X12: outside production mode the handler logs the error exactly
    once and writes the status argument as its first call on the
    response, on every branch and also when it panics later. *)
Theorem developer_logs_then_writes_status (status : Z) (err : error)
  (c : Context) (w : World) :
  is_production (Get c "env") = Returned false ->
  let w' := (defaultErrorHandler status err c w).2 in
  logged w' = logged w ++ [err] /\
  (response w ++ [Http.WriteHeader status]) `prefix_of` response w'.
Proof.
  intros Henv. unfold defaultErrorHandler, bind, lift. rewrite Henv.
  unfold developer_path, bind, lift, Logger_Error, WriteHeader. simpl.
  destruct (eStacks_loop _ _) as [records|v]; simpl; [|by split].
  rewrite reverse_in_place_reverse.
  destruct (content_kind _); [| |destruct (velvet_Render _ _)];
    unfold Write, ret; simpl; (split; [done | solve_prefix]).
Qed.

(** X14: the handler does not panic when "env" is absent or a string
    and the message of every entry of the chain can be read. *)
Theorem defaultErrorHandler_returns (status : Z) (err : error) (c : Context)
  (w : World) (production : bool) :
  is_production (Get c "env") = Returned production ->
  Forall (fun item => exists msg, errval_Error item = Returned msg)
    (ErrorChain err) ->
  exists result w', defaultErrorHandler status err c w = (Returned result, w').
Proof.
  intros Henv Hmsgs. unfold defaultErrorHandler, bind, lift. rewrite Henv.
  destruct production; [run_production; by eexists _, _|].
  destruct (eStacks_loop_returns _ Hmsgs) as (records & Hrecords & _).
  rewrite (developer_path_run _ _ _ _ _ Hrecords). simpl.
  destruct (content_kind _); [| |destruct (velvet_Render _ _)];
    unfold bind, WriteHeader, Write; simpl; by eexists _, _.
Qed.

(** X7: outside production mode, an [HTTPError] whose [CausedBy] is nil
    makes the handler panic with a nil dereference when it reads the
    message, after the error was logged and the status written, and
    before any body is written. *)
Theorem developer_nil_CausedBy_panics (status code : Z) (c : Context)
  (w : World) :
  is_production (Get c "env") = Returned false ->
  defaultErrorHandler status (Some (HTTPError code None)) c w =
    (Panicked nil_dereference,
     {| response := response w ++ [Http.WriteHeader status];
        logged := logged w ++ [Some (HTTPError code None)];
        captured := captured w; stdout := stdout w |}).
Proof.
  intros Henv. unfold defaultErrorHandler, bind, lift. by rewrite Henv.
Qed.

(** X8: on the XML branch the handler writes the status and no body, and
    returns the error it was given, not nil. *)
Theorem developer_xml_returns_error (status : Z) (err : error) (c : Context)
  (w : World) (records : list ErrorStack) :
  is_production (Get c "env") = Returned false ->
  content_kind (Http.Header_Get (Http.Header (Request c)) "Content-Type")
    = KindXML ->
  eStacks_loop (ErrorChain err) [] = Returned records ->
  defaultErrorHandler status err c w =
    (Returned err,
     {| response := response w ++ [Http.WriteHeader status];
        logged := logged w ++ [err];
        captured := captured w; stdout := stdout w |}).
Proof.
  intros Henv Hkind Hrecords.
  unfold defaultErrorHandler, bind, lift. rewrite Henv.
  rewrite (developer_path_run _ _ _ _ _ Hrecords). simpl. by rewrite Hkind.
Qed.

(** X9: on the JSON branch, for nil and for every error without a
    [Cause()] method, the document written has the status code and a
    null "errors" field: no record of the error is rendered. *)
Theorem developer_json_null_errors (status : Z) (err : error) (c : Context)
  (w : World) :
  is_production (Get c "env") = Returned false ->
  content_kind (Http.Header_Get (Http.Header (Request c)) "Content-Type")
    = KindJSON ->
  match err with
  | Some v => implements_Causer v = false
  | None => True
  end ->
  defaultErrorHandler status err c w =
    (Returned (write_failure c),
     {| response := response w ++
          [Http.WriteHeader status;
           Http.Write (Http.JSONLine
             (Http.JObj [("code", Http.JNum status);
                         ("errors", Http.JNull)]))];
        logged := logged w ++ [err];
        captured := captured w; stdout := stdout w |}).
Proof.
  intros Henv Hkind Herr.
  assert (ErrorChain err = []) as Hchain
    by (destruct err; [by apply ErrorChain_not_Causer | done]).
  rewrite (developer_json status err c w [] Henv Hkind); [done|].
  by rewrite Hchain.
Qed.

(** X10: on the JSON branch, whenever the records can be built, the
    handler writes the status and one document holding one record per
    entry returned by [ErrorChain], last entry first, and returns what
    the write returned. *)
Theorem developer_json_records (status : Z) (err : error) (c : Context)
  (w : World) (records : list ErrorStack) :
  is_production (Get c "env") = Returned false ->
  content_kind (Http.Header_Get (Http.Header (Request c)) "Content-Type")
    = KindJSON ->
  eStacks_loop (ErrorChain err) [] = Returned records ->
  length (reverse records) = length (ErrorChain err) /\
  Forall2 (fun item r => newErrorStack item = Returned r)
    (reverse (ErrorChain err)) (reverse records) /\
  defaultErrorHandler status err c w =
    (Returned (write_failure c),
     {| response := response w ++
          [Http.WriteHeader status;
           Http.Write (Http.JSONLine
                         (error_document (reverse records) status))];
        logged := logged w ++ [err];
        captured := captured w; stdout := stdout w |}).
Proof.
  intros Henv Hkind Hrecords.
  pose proof (eStacks_loop_Forall2 _ _ Hrecords) as Hall.
  split; [|split].
  - rewrite length_reverse. symmetry. by eapply Forall2_length.
  - by apply Forall2_reverse.
  - by apply developer_json.
Qed.

(** X15: a non-nil "env" value that is not a string makes the handler
    panic in the type assertion before it logs or writes anything. *)
Theorem defaultErrorHandler_env_not_string_panics (status : Z) (err : error)
  (c : Context) (w : World) (v : value) :
  Get c "env" = Some v ->
  (forall s, v <> VString s) ->
  defaultErrorHandler status err c w = (Panicked not_a_string, w).
Proof.
  intros Henv Hv. unfold defaultErrorHandler, bind, lift. rewrite Henv.
  destruct v; try done. by destruct (Hv s).
Qed.

End HandlerMore.

(** ** More on the Sentry middleware *)

Section SentryMore.
Context {rt : Runtime}.

(** Building the frames of an error never fails. *)
Lemma buildSentryStackTrace_returns err prefixes :
  exists st, buildSentryStackTrace err prefixes = Returned st.
Proof.
  unfold buildSentryStackTrace.
  destruct (assert_StackTracer err) as [trace|]; [|by eexists].
  rewrite frames_loop_spec by done. by eexists.
Qed.

(** A filtered list is no longer than the list. *)
Lemma omap_length_le {A B} (f : A -> option B) (l : list A) :
  (length (omap f l) <= length l)%nat.
Proof.
  induction l as [|x l IH]; [done|]. cbn [omap list_omap].
  destruct (f x); simpl; lia.
Qed.

(** X17: for a trace-bearing error the stack trace built is never nil
    and never has more frames than the trace has entries; when no
    program counter of the trace resolves to a function it has no
    frames at all. *)
Theorem buildSentryStackTrace_bounds (err : errval) (trace : StackTrace)
  (prefixes : list string) :
  assert_StackTracer err = Some trace ->
  exists st,
    buildSentryStackTrace err prefixes = Returned (Some st) /\
    (length (Raven.Frames st) <= length trace)%nat /\
    (Forall (fun f => runtime_FuncForPC (pc f) = None) trace ->
     Raven.Frames st = []).
Proof.
  intros Htrace. unfold buildSentryStackTrace. rewrite Htrace.
  rewrite frames_loop_spec by done. rewrite firstn_all.
  eexists. split; [done|]. cbn [Raven.Frames app]. split.
  - etrans; [apply omap_length_le|]. by rewrite length_reverse.
  - intros Hnone. apply Forall_reverse in Hnone.
    induction Hnone as [|f l Hf _ IH]; [done|].
    cbn [omap list_omap]. unfold reported_frame at 1. by rewrite Hf.
Qed.

(** The exceptions are appended while walking the chain from its last
    entry down to its first. *)
Lemma exceptions_loop_spec chain prefixes (k : nat) : forall Values result,
  (k <= length chain)%nat ->
  exceptions_loop k chain prefixes Values = Returned result ->
  exists added, result = Values ++ added /\
    Forall2 (fun e x =>
               errval_Error e = Returned (Raven.Value x) /\
               buildSentryStackTrace e prefixes =
                 Returned (Raven.ExceptionStacktrace x))
      (reverse (take k chain)) added.
Proof.
  induction k as [|i IH]; intros Values result Hk; cbn [exceptions_loop].
  - intros [= <-]. exists []. rewrite take_0, app_nil_r. by split.
  - destruct (lookup_lt_is_Some_2 chain i) as [e He]; [lia|].
    rewrite He, (take_S_r _ _ _ He), reverse_snoc.
    destruct (buildSentryStackTrace e prefixes) as [st|] eqn:Hst; [|done].
    destruct (errval_Error e) as [msg|] eqn:Hmsg; [|done].
    cbn [and_then]. intros Hloop.
    apply IH in Hloop as (added & -> & Hall); [|lia].
    exists (Raven.NewException msg st :: added).
    split; [by rewrite <- app_assoc|]. by constructor.
Qed.

(** The chain loop returns when the message of every entry can be
    read. *)
Lemma exceptions_loop_returns chain prefixes (k : nat) : forall Values,
  (k <= length chain)%nat ->
  Forall (fun e => exists msg, errval_Error e = Returned msg) chain ->
  exists result, exceptions_loop k chain prefixes Values = Returned result.
Proof.
  induction k as [|i IH]; intros Values Hk Hmsgs; cbn [exceptions_loop].
  - by eexists.
  - destruct (lookup_lt_is_Some_2 chain i) as [e He]; [lia|].
    rewrite He.
    destruct (buildSentryStackTrace_returns e prefixes) as [st ->].
    destruct (Forall_lookup_1 _ _ _ _ Hmsgs He) as [msg ->].
    cbn [and_then]. apply IH; [lia|done].
Qed.

(** X18: a packet built by [buildErrPacket] carries, besides the
    request, one exception per entry returned by [ErrorChain], the last
    entry of the chain first; each exception holds the message and the
    frames of its own entry. *)
Theorem buildErrPacket_exceptions (err : error) (prefixes : list string)
  (c : Context) (p : Raven.Packet) :
  buildErrPacket err prefixes c = Returned p ->
  exists Values,
    Raven.Interfaces p = [Raven.IExceptions Values; Raven.NewHttp (Request c)]
    /\ length Values = length (ErrorChain err)
    /\ Forall2 (fun e x =>
                  errval_Error e = Returned (Raven.Value x) /\
                  buildSentryStackTrace e prefixes =
                    Returned (Raven.ExceptionStacktrace x))
         (reverse (ErrorChain err)) Values.
Proof.
  unfold buildErrPacket.
  destruct (exceptions_loop _ _ _ _) as [Values|] eqn:Hloop; [|done].
  apply exceptions_loop_spec in Hloop as (added & -> & Hall); [|done].
  rewrite firstn_all in Hall. cbn [and_then app].
  destruct (index _ _) as [l|]; [|done]. cbn [and_then].
  destruct (errval_Error l) as [msg|]; [|done]. cbn [and_then].
  intros [= <-]. exists added. split; [done|]. split; [|done].
  apply Forall2_length in Hall. by rewrite length_reverse in Hall.
Qed.

(** X19: when the chain-terminal error has a [Cause()] method, the
    top-level message of a packet built for the error is the message of
    that root error. *)
Theorem buildErrPacket_root_message (v t : errval) (prefixes : list string)
  (c : Context) (p : Raven.Packet) :
  last (ChainOf v) = Some t ->
  implements_Causer t = true ->
  buildErrPacket (Some v) prefixes c = Returned p ->
  errval_Error t = Returned (Raven.Message p).
Proof.
  intros Hlast Ht Hp.
  apply buildErrPacket_Message in Hp as (l & Hl & Hmsg).
  rewrite (ErrorChain_all_causers v t Hlast Ht) in Hl. congruence.
Qed.

(** X20: when the wrapped handler returns an error that has a
    [Cause()] method and the message of every entry of its chain can be
    read, the second copy submits exactly one report, whose top-level
    message is that of the last entry of the chain, and returns the
    handler's error unchanged. *)
Theorem Sentry2_reports_causer_chain (prefixes : list string)
  (next : Handler) (c : Context) (w w1 : World) (v : errval) :
  next c w = (Returned (Some v), w1) ->
  implements_Causer v = true ->
  Forall (fun e => exists msg, errval_Error e = Returned msg)
    (ErrorChain (Some v)) ->
  exists p l,
    last (ErrorChain (Some v)) = Some l /\
    errval_Error l = Returned (Raven.Message p) /\
    Sentry2 prefixes false next c w =
      (Returned (Some v),
       {| response := response w1; logged := logged w1;
          captured := captured w1 ++ [p]; stdout := stdout w1 |}).
Proof.
  intros Hnext Hv Hmsgs.
  assert (exists p, buildErrPacket (Some v) prefixes c = Returned p)
    as [p Hp].
  { unfold buildErrPacket.
    destruct (exceptions_loop_returns (ErrorChain (Some v)) prefixes
                (length (ErrorChain (Some v))) [] (le_n _) Hmsgs)
      as [Values ->].
    cbn [and_then]. rewrite index_last.
    destruct (last (ErrorChain (Some v))) as [l|] eqn:Hl.
    - cbn [and_then].
      destruct (Forall_forall
                  (fun e => exists msg, errval_Error e = Returned msg)
                  (ErrorChain (Some v))) as [Hall _].
      destruct (Hall Hmsgs l) as [msg ->]; [|by eexists].
      rewrite last_lookup in Hl. by eapply list_elem_of_lookup_2.
    - rewrite (ErrorChain_Causer_head v Hv) in Hl.
      apply last_None in Hl. done. }
  destruct (buildErrPacket_Message _ _ _ _ Hp) as (l & Hl & Hmsg).
  exists p, l. split; [done|]. split; [done|].
  by apply Sentry2_one_report.
Qed.

(** X21: in panics-only mode, or when the wrapped handler returns nil,
    none of the copies of the middleware submits a report, prints, or
    changes what the handler returned. *)
Theorem Sentry_quiet (prefixes : list string) (panicsOnly : bool)
  (next : Handler) (c : Context) (w w1 : World) (err : error) :
  next c w = (Returned err, w1) ->
  panicsOnly = true \/ err = None ->
  Sentry1 prefixes panicsOnly next c w = (Returned err, w1) /\
  Sentry2 prefixes panicsOnly next c w = (Returned err, w1) /\
  Sentry3 prefixes panicsOnly next c w = (Returned err, w1).
Proof.
  intros Hnext Hquiet.
  repeat split; apply defer_report_return; unfold bind; rewrite Hnext;
    by destruct Hquiet as [-> | ->]; [|destruct panicsOnly].
Qed.

(** X22: the first copy, given an [HTTPError] that wraps an error
    without a stack trace, prints the type of the wrapped error, submits
    one report carrying the wrapped error's message, and returns the
    wrapped error in place of the [HTTPError]. *)
Theorem Sentry1_unwraps_HTTPError (prefixes : list string) (next : Handler)
  (c : Context) (w w1 : World) (status : Z) (v : errval) (msg : string) :
  next c w = (Returned (Some (HTTPError status (Some v))), w1) ->
  assert_StackTracer v = None ->
  errval_Error v = Returned msg ->
  Sentry1 prefixes false next c w =
    (Returned (Some v),
     {| response := response w1; logged := logged w1;
        captured := captured w1 ++
          [Raven.NewPacket msg
             [Raven.IMessage msg; Raven.NewHttp (Request c)]];
        stdout := stdout w1 ++ [reflect_TypeOf (Some v)] |}).
Proof.
  intros Hnext Htrace Hmsg. apply defer_report_return.
  unfold bind, lift, Println, Capture, ret. rewrite Hnext. simpl.
  by rewrite Htrace, Hmsg.
Qed.

(** X23: the first copy, given a trace-bearing error that is not an
    [HTTPError], panics with a nil dereference: it builds the exception
    from the zero [HTTPError], whose message cannot be read.  The error
    itself is not reported; the panic is. *)
Theorem Sentry1_traced_error_panics (prefixes : list string) (next : Handler)
  (c : Context) (w w1 : World) (msg : string) (trace : StackTrace)
  (cause : option (option errval)) :
  next c w = (Returned (Some (Foreign msg (Some trace) cause)), w1) ->
  Sentry1 prefixes false next c w =
    (Panicked nil_dereference,
     {| response := response w1; logged := logged w1;
        captured := captured w1 ++
                    [panic_packet prefixes c nil_dereference];
        stdout := stdout w1 |}).
Proof.
  intros Hnext. apply defer_report_panic.
  unfold bind, lift. rewrite Hnext. simpl.
  unfold buildSentryStackTrace1. by rewrite frames_loop_spec.
Qed.

(** X24: the third copy, given an error whose message can be read,
    submits exactly one report, whose top-level message and exception
    value are that message, and returns the handler's error
    unchanged. *)
Theorem Sentry3_one_report (prefixes : list string) (next : Handler)
  (c : Context) (w w1 : World) (v : errval) (msg : string) :
  next c w = (Returned (Some v), w1) ->
  errval_Error v = Returned msg ->
  Sentry3 prefixes false next c w =
    (Returned (Some v),
     {| response := response w1; logged := logged w1;
        captured := captured w1 ++
          [Raven.NewPacket msg
             [Raven.IException
                (Raven.NewException msg (raven_NewStacktrace 2 3 prefixes));
              Raven.NewHttp (Request c)]];
        stdout := stdout w1 |}).
Proof.
  intros Hnext Hmsg. apply defer_report_return.
  unfold bind, lift, Capture, ret. rewrite Hnext. simpl. by rewrite Hmsg.
Qed.

(** X25: when the wrapped handler returns an [HTTPError] whose
    [CausedBy] is nil, every copy panics with a nil dereference while
    reading the message, reports that panic once and submits no report
    for the error; the first copy has printed the type of nil before. *)
Theorem Sentry_nil_CausedBy_panics (prefixes : list string) (next : Handler)
  (c : Context) (w w1 : World) (status : Z) :
  next c w = (Returned (Some (HTTPError status None)), w1) ->
  let reported :=
    captured w1 ++ [panic_packet prefixes c nil_dereference] in
  Sentry1 prefixes false next c w =
    (Panicked nil_dereference,
     {| response := response w1; logged := logged w1; captured := reported;
        stdout := stdout w1 ++ [reflect_TypeOf None] |}) /\
  Sentry2 prefixes false next c w =
    (Panicked nil_dereference,
     {| response := response w1; logged := logged w1; captured := reported;
        stdout := stdout w1 |}) /\
  Sentry3 prefixes false next c w =
    (Panicked nil_dereference,
     {| response := response w1; logged := logged w1; captured := reported;
        stdout := stdout w1 |}).
Proof.
  intros Hnext. repeat split.
  - unfold Sentry1, defer, bind, lift, Println. by rewrite Hnext.
  - apply defer_report_panic. unfold bind, lift. by rewrite Hnext.
  - apply defer_report_panic. unfold bind, lift. by rewrite Hnext.
Qed.

End SentryMore.

(** ** The further properties on concrete inputs *)

(** X4 on [outer] caused by a root that has a [Cause()] method. *)
Lemma ErrorChain_linked_witness :
  ErrorChain (Some Examples.outer_of_causer) !! 0%nat
    = Some Examples.outer_of_causer /\
  ErrorChain (Some Examples.outer_of_causer) !! 1%nat
    = Some Examples.inner_causer /\
  Cause Examples.outer_of_causer = Some Examples.inner_causer.
Proof.
  split; [reflexivity|]. split; [reflexivity|].
  exact (ErrorChain_linked (Some Examples.outer_of_causer) 0
           Examples.outer_of_causer Examples.inner_causer eq_refl eq_refl).
Defined.

(** X5 on the same error. *)
Lemma ErrorChain_whole_chain_witness :
  last (ChainOf Examples.outer_of_causer) = Some Examples.inner_causer /\
  implements_Causer Examples.inner_causer = true /\
  ErrorChain (Some Examples.outer_of_causer)
    = ChainOf Examples.outer_of_causer /\
  length (ErrorChain (Some Examples.outer_of_causer))
    = length (ChainOf Examples.outer_of_causer) /\
  last (ErrorChain (Some Examples.outer_of_causer))
    = Some Examples.inner_causer /\
  Cause Examples.inner_causer = None.
Proof.
  split; [reflexivity|]. split; [reflexivity|].
  exact (ErrorChain_whole_chain Examples.outer_of_causer
           Examples.inner_causer eq_refl eq_refl).
Defined.

(** X7 on a request without "env". *)
Lemma developer_nil_CausedBy_panics_witness :
  is_production (Get (Examples.context None None) "env") = Returned false /\
  defaultErrorHandler (libs := Examples.libs) 500 (Some (HTTPError 404 None))
    (Examples.context None None) Examples.world0 =
    (Panicked nil_dereference,
     {| response := [Http.WriteHeader 500];
        logged := [Some (HTTPError 404 None)];
        captured := []; stdout := [] |}).
Proof.
  split; [reflexivity|].
  exact (developer_nil_CausedBy_panics (libs := Examples.libs) 500 404
           (Examples.context None None) Examples.world0 eq_refl).
Defined.

(** X8 on a request with content type "text/xml". *)
Lemma developer_xml_returns_error_witness :
  let c := Examples.context None (Some "text/xml") in
  is_production (Get c "env") = Returned false /\
  content_kind (Http.Header_Get (Http.Header (Request c)) "Content-Type")
    = KindXML /\
  eStacks_loop (libs := Examples.libs)
    (ErrorChain (Some Examples.not_found)) []
    = Returned [{| Msg := "boom"; Stack := ""; HasStack := false |}] /\
  defaultErrorHandler (libs := Examples.libs) 500 (Some Examples.not_found)
    c Examples.world0 =
    (Returned (Some Examples.not_found),
     {| response := [Http.WriteHeader 500];
        logged := [Some Examples.not_found];
        captured := []; stdout := [] |}).
Proof.
  split; [reflexivity|]. split; [reflexivity|]. split; [reflexivity|].
  exact (developer_xml_returns_error (libs := Examples.libs) 500
           (Some Examples.not_found)
           (Examples.context None (Some "text/xml")) Examples.world0
           [{| Msg := "boom"; Stack := ""; HasStack := false |}]
           eq_refl eq_refl eq_refl).
Defined.

(** X9 on the plain error [boom]. *)
Lemma developer_json_null_errors_witness :
  let c := Examples.context None (Some "application/json") in
  is_production (Get c "env") = Returned false /\
  content_kind (Http.Header_Get (Http.Header (Request c)) "Content-Type")
    = KindJSON /\
  implements_Causer Examples.boom = false /\
  defaultErrorHandler (libs := Examples.libs) 500 (Some Examples.boom)
    c Examples.world0 =
    (Returned None,
     {| response :=
          [Http.WriteHeader 500;
           Http.Write (Http.JSONLine
             (Http.JObj [("code", Http.JNum 500);
                         ("errors", Http.JNull)]))];
        logged := [Some Examples.boom];
        captured := []; stdout := [] |}).
Proof.
  split; [reflexivity|]. split; [reflexivity|]. split; [reflexivity|].
  exact (developer_json_null_errors (libs := Examples.libs) 500
           (Some Examples.boom)
           (Examples.context None (Some "application/json"))
           Examples.world0 eq_refl eq_refl eq_refl).
Defined.

(** X10 on [outer] caused by a root that has a [Cause()] method. *)
Lemma developer_json_records_witness :
  let c := Examples.context None (Some "application/json") in
  let records := [{| Msg := "outer"; Stack := ""; HasStack := false |};
                  {| Msg := "inner"; Stack := ""; HasStack := false |}] in
  is_production (Get c "env") = Returned false /\
  content_kind (Http.Header_Get (Http.Header (Request c)) "Content-Type")
    = KindJSON /\
  eStacks_loop (libs := Examples.libs)
    (ErrorChain (Some Examples.outer_of_causer)) [] = Returned records /\
  length (reverse records)
    = length (ErrorChain (Some Examples.outer_of_causer)) /\
  Forall2 (fun item r =>
             newErrorStack (libs := Examples.libs) item = Returned r)
    (reverse (ErrorChain (Some Examples.outer_of_causer)))
    (reverse records) /\
  defaultErrorHandler (libs := Examples.libs) 500
    (Some Examples.outer_of_causer) c Examples.world0 =
    (Returned None,
     {| response :=
          [Http.WriteHeader 500;
           Http.Write (Http.JSONLine
                         (error_document (reverse records) 500))];
        logged := [Some Examples.outer_of_causer];
        captured := []; stdout := [] |}).
Proof.
  split; [reflexivity|]. split; [reflexivity|]. split; [reflexivity|].
  exact (developer_json_records (libs := Examples.libs) 500
           (Some Examples.outer_of_causer)
           (Examples.context None (Some "application/json"))
           Examples.world0
           [{| Msg := "outer"; Stack := ""; HasStack := false |};
            {| Msg := "inner"; Stack := ""; HasStack := false |}]
           eq_refl eq_refl eq_refl).
Defined.

(** X12 on a request without "env" and without content type. *)
Lemma developer_logs_then_writes_status_witness :
  let c := Examples.context None None in
  let w' := (defaultErrorHandler (libs := Examples.libs) 500
               (Some Examples.boom) c Examples.world0).2 in
  is_production (Get c "env") = Returned false /\
  logged w' = logged Examples.world0 ++ [Some Examples.boom] /\
  (response Examples.world0 ++ [Http.WriteHeader 500])
    `prefix_of` response w'.
Proof.
  split; [reflexivity|].
  exact (developer_logs_then_writes_status (libs := Examples.libs) 500
           (Some Examples.boom) (Examples.context None None)
           Examples.world0 eq_refl).
Defined.

(** X14 on an [HTTPError] that wraps a plain error. *)
Lemma defaultErrorHandler_returns_witness :
  let c := Examples.context None None in
  is_production (Get c "env") = Returned false /\
  Forall (fun item => exists msg, errval_Error item = Returned msg)
    (ErrorChain (Some Examples.not_found)) /\
  exists result w',
    defaultErrorHandler (libs := Examples.libs) 500
      (Some Examples.not_found) c Examples.world0 = (Returned result, w').
Proof.
  assert (Forall (fun item => exists msg, errval_Error item = Returned msg)
            (ErrorChain (Some Examples.not_found))) as Hmsgs.
  { change (ErrorChain (Some Examples.not_found))
      with [Examples.not_found].
    constructor; [by exists "boom" | constructor]. }
  split; [reflexivity|]. split; [exact Hmsgs|].
  exact (defaultErrorHandler_returns (libs := Examples.libs) 500
           (Some Examples.not_found) (Examples.context None None)
           Examples.world0 false eq_refl Hmsgs).
Defined.

(** X15 on a context whose "env" is the integer 1. *)
Lemma defaultErrorHandler_env_not_string_panics_witness :
  let c := Examples.context (Some (VInt 1)) None in
  Get c "env" = Some (VInt 1) /\
  (forall s, VInt 1 <> VString s) /\
  defaultErrorHandler (libs := Examples.libs) 500 (Some Examples.boom) c
    Examples.world0 = (Panicked not_a_string, Examples.world0).
Proof.
  split; [reflexivity|]. split; [discriminate|].
  apply (defaultErrorHandler_env_not_string_panics (libs := Examples.libs)
           500 (Some Examples.boom) (Examples.context (Some (VInt 1)) None)
           Examples.world0 (VInt 1)); [reflexivity | discriminate].
Defined.

(** X17 on a trace of two frames. *)
Lemma buildSentryStackTrace_bounds_witness :
  assert_StackTracer Examples.traced = Some [4198401; 4198501] /\
  exists st,
    buildSentryStackTrace (rt := Examples.runtime) Examples.traced []
      = Returned (Some st) /\
    (length (Raven.Frames st)
       <= length ([4198401; 4198501]%Z : StackTrace))%nat /\
    (Forall (fun f => runtime_FuncForPC (Runtime := Examples.runtime) (pc f)
                      = None) [4198401; 4198501] ->
     Raven.Frames st = []).
Proof.
  split; [reflexivity|].
  exact (buildSentryStackTrace_bounds (rt := Examples.runtime)
           Examples.traced [4198401; 4198501] [] eq_refl).
Defined.

(** X18 on [outer] caused by a root that has a [Cause()] method. *)
Lemma buildErrPacket_exceptions_witness :
  let c := Examples.context None None in
  let p := {| Raven.Message := "inner";
              Raven.Interfaces :=
                [Raven.IExceptions [Raven.NewException "inner" None;
                                    Raven.NewException "outer" None];
                 Raven.NewHttp (Request c)] |} in
  buildErrPacket (rt := Examples.runtime) (Some Examples.outer_of_causer) [] c
    = Returned p /\
  exists Values,
    Raven.Interfaces p = [Raven.IExceptions Values; Raven.NewHttp (Request c)]
    /\ length Values = length (ErrorChain (Some Examples.outer_of_causer))
    /\ Forall2 (fun e x =>
                  errval_Error e = Returned (Raven.Value x) /\
                  buildSentryStackTrace (rt := Examples.runtime) e [] =
                    Returned (Raven.ExceptionStacktrace x))
         (reverse (ErrorChain (Some Examples.outer_of_causer))) Values.
Proof.
  split; [reflexivity|].
  exact (buildErrPacket_exceptions (rt := Examples.runtime)
           (Some Examples.outer_of_causer) [] (Examples.context None None)
           _ eq_refl).
Defined.

(** X19 on the same error. *)
Lemma buildErrPacket_root_message_witness :
  let c := Examples.context None None in
  let p := {| Raven.Message := "inner";
              Raven.Interfaces :=
                [Raven.IExceptions [Raven.NewException "inner" None;
                                    Raven.NewException "outer" None];
                 Raven.NewHttp (Request c)] |} in
  last (ChainOf Examples.outer_of_causer) = Some Examples.inner_causer /\
  implements_Causer Examples.inner_causer = true /\
  buildErrPacket (rt := Examples.runtime) (Some Examples.outer_of_causer) [] c
    = Returned p /\
  errval_Error Examples.inner_causer = Returned (Raven.Message p).
Proof.
  split; [reflexivity|]. split; [reflexivity|]. split; [reflexivity|].
  exact (buildErrPacket_root_message (rt := Examples.runtime)
           Examples.outer_of_causer Examples.inner_causer []
           (Examples.context None None) _ eq_refl eq_refl eq_refl).
Defined.

(** X20 on a handler that returns the same error. *)
Lemma Sentry2_reports_causer_chain_witness :
  let c := Examples.context None None in
  let next := Examples.returns (Some Examples.outer_of_causer) in
  next c Examples.world0
    = (Returned (Some Examples.outer_of_causer), Examples.world0) /\
  implements_Causer Examples.outer_of_causer = true /\
  Forall (fun e => exists msg, errval_Error e = Returned msg)
    (ErrorChain (Some Examples.outer_of_causer)) /\
  exists p l,
    last (ErrorChain (Some Examples.outer_of_causer)) = Some l /\
    errval_Error l = Returned (Raven.Message p) /\
    Sentry2 (rt := Examples.runtime) [] false next c Examples.world0 =
      (Returned (Some Examples.outer_of_causer),
       {| response := response Examples.world0;
          logged := logged Examples.world0;
          captured := captured Examples.world0 ++ [p];
          stdout := stdout Examples.world0 |}).
Proof.
  assert (Forall (fun e => exists msg, errval_Error e = Returned msg)
            (ErrorChain (Some Examples.outer_of_causer))) as Hmsgs.
  { change (ErrorChain (Some Examples.outer_of_causer))
      with [Examples.outer_of_causer; Examples.inner_causer].
    constructor; [by exists "outer"|].
    constructor; [by exists "inner" | constructor]. }
  split; [reflexivity|]. split; [reflexivity|]. split; [exact Hmsgs|].
  exact (Sentry2_reports_causer_chain (rt := Examples.runtime) []
           (Examples.returns (Some Examples.outer_of_causer))
           (Examples.context None None) Examples.world0 Examples.world0
           Examples.outer_of_causer eq_refl eq_refl Hmsgs).
Defined.

(** X21 on a handler that returns nil. *)
Lemma Sentry_quiet_witness :
  let c := Examples.context None None in
  let next := Examples.returns None in
  next c Examples.world0 = (Returned None, Examples.world0) /\
  (false = true \/ @None errval = None) /\
  Sentry1 (rt := Examples.runtime) [] false next c Examples.world0
    = (Returned None, Examples.world0) /\
  Sentry2 (rt := Examples.runtime) [] false next c Examples.world0
    = (Returned None, Examples.world0) /\
  Sentry3 (rt := Examples.runtime) [] false next c Examples.world0
    = (Returned None, Examples.world0).
Proof.
  split; [reflexivity|]. split; [right; reflexivity|].
  exact (Sentry_quiet (rt := Examples.runtime) [] false
           (Examples.returns None) (Examples.context None None)
           Examples.world0 Examples.world0 None eq_refl
           (or_intror eq_refl)).
Defined.

(** X22 on a handler that returns the 404 [HTTPError]. *)
Lemma Sentry1_unwraps_HTTPError_witness :
  let c := Examples.context None None in
  let next := Examples.returns (Some Examples.not_found) in
  next c Examples.world0
    = (Returned (Some (HTTPError 404 (Some Examples.boom))), Examples.world0)
  /\ assert_StackTracer Examples.boom = None
  /\ errval_Error Examples.boom = Returned "boom"
  /\ Sentry1 (rt := Examples.runtime) [] false next c Examples.world0 =
      (Returned (Some Examples.boom),
       {| response := []; logged := [];
          captured := [Raven.NewPacket "boom"
                         [Raven.IMessage "boom"; Raven.NewHttp (Request c)]];
          stdout := ["*errors.errorString"] |}).
Proof.
  split; [reflexivity|]. split; [reflexivity|]. split; [reflexivity|].
  exact (Sentry1_unwraps_HTTPError (rt := Examples.runtime) []
           (Examples.returns (Some Examples.not_found))
           (Examples.context None None) Examples.world0 Examples.world0
           404 Examples.boom "boom" eq_refl eq_refl eq_refl).
Defined.

(** X23 on a handler that returns a trace-bearing error. *)
Lemma Sentry1_traced_error_panics_witness :
  let c := Examples.context None None in
  let next := Examples.returns (Some Examples.traced) in
  next c Examples.world0
    = (Returned (Some (Foreign "traced" (Some [4198401; 4198501]) None)),
       Examples.world0) /\
  Sentry1 (rt := Examples.runtime) [] false next c Examples.world0 =
    (Panicked nil_dereference,
     {| response := []; logged := [];
        captured := [panic_packet (rt := Examples.runtime) [] c
                       nil_dereference];
        stdout := [] |}).
Proof.
  split; [reflexivity|].
  exact (Sentry1_traced_error_panics (rt := Examples.runtime) []
           (Examples.returns (Some Examples.traced))
           (Examples.context None None) Examples.world0 Examples.world0
           "traced" [4198401; 4198501] None eq_refl).
Defined.

(** X24 on a handler that returns the plain error [boom]. *)
Lemma Sentry3_one_report_witness :
  let c := Examples.context None None in
  let next := Examples.returns (Some Examples.boom) in
  next c Examples.world0 = (Returned (Some Examples.boom), Examples.world0) /\
  errval_Error Examples.boom = Returned "boom" /\
  Sentry3 (rt := Examples.runtime) [] false next c Examples.world0 =
    (Returned (Some Examples.boom),
     {| response := []; logged := [];
        captured := [Raven.NewPacket "boom"
                       [Raven.IException (Raven.NewException "boom" None);
                        Raven.NewHttp (Request c)]];
        stdout := [] |}).
Proof.
  split; [reflexivity|]. split; [reflexivity|].
  exact (Sentry3_one_report (rt := Examples.runtime) []
           (Examples.returns (Some Examples.boom))
           (Examples.context None None) Examples.world0 Examples.world0
           Examples.boom "boom" eq_refl eq_refl).
Defined.

(** X25 on a handler that returns an [HTTPError] without cause. *)
Lemma Sentry_nil_CausedBy_panics_witness :
  let c := Examples.context None None in
  let next := Examples.returns (Some (HTTPError 500 None)) in
  let reported :=
    [panic_packet (rt := Examples.runtime) [] c nil_dereference] in
  next c Examples.world0
    = (Returned (Some (HTTPError 500 None)), Examples.world0) /\
  Sentry1 (rt := Examples.runtime) [] false next c Examples.world0 =
    (Panicked nil_dereference,
     {| response := []; logged := []; captured := reported;
        stdout := ["<nil>"] |}) /\
  Sentry2 (rt := Examples.runtime) [] false next c Examples.world0 =
    (Panicked nil_dereference,
     {| response := []; logged := []; captured := reported;
        stdout := [] |}) /\
  Sentry3 (rt := Examples.runtime) [] false next c Examples.world0 =
    (Panicked nil_dereference,
     {| response := []; logged := []; captured := reported;
        stdout := [] |}).
Proof.
  split; [reflexivity|].
  exact (Sentry_nil_CausedBy_panics (rt := Examples.runtime) []
           (Examples.returns (Some (HTTPError 500 None)))
           (Examples.context None None) Examples.world0 Examples.world0
           500 eq_refl).
Defined.

(** X26 on a handler that returns the plain error [boom]. *)
Lemma Sentry2_plain_error_panics_witness :
  let c := Examples.context None None in
  let next := Examples.returns (Some Examples.boom) in
  next c Examples.world0 = (Returned (Some Examples.boom), Examples.world0) /\
  implements_Causer Examples.boom = false /\
  Sentry2 (rt := Examples.runtime) [] false next c Examples.world0 =
    (Panicked index_out_of_range,
     {| response := []; logged := [];
        captured := [panic_packet (rt := Examples.runtime) [] c
                       index_out_of_range];
        stdout := [] |}).
Proof.
  split; [reflexivity|]. split; [reflexivity|].
  exact (Sentry2_plain_error_panics (rt := Examples.runtime) []
           (Examples.returns (Some Examples.boom))
           (Examples.context None None) Examples.world0 Examples.boom
           Examples.world0 eq_refl eq_refl).
Defined.

(** ** ErrorChain and the state behind Cause() *)

Section StatefulFacts.
Context {R S : Type} (Cause_of : R -> option (S -> option R * S)).

(** A successful assertion yields the value together with the method of
    its own dynamic type. *)
Lemma assert_Causer_method e r Cause_m :
  Stateful.assert_Causer Cause_of e = Some (r, Cause_m) ->
  e = Some r /\ Cause_of r = Some Cause_m.
Proof.
  unfold Stateful.assert_Causer. destruct e as [r'|]; [|done].
  destruct (Cause_of r') as [m|] eqn:Hm; [|done]. by intros [= <- <-].
Qed.

(** What the loop does when it ends: the variable [cause] is nil, the
    slice has grown by the Causers visited, the first of which is the one
    the loop was entered with, and the state has gone through one
    [Cause()] call per entry appended, in order. *)
Lemma ErrorChain_for_frame (fuel : nat) :
  forall causeChain cause s chain cause' s',
  (forall r Cause_m, cause = Some (r, Cause_m) -> Cause_of r = Some Cause_m) ->
  Stateful.ErrorChain_for Cause_of fuel causeChain cause s
    = Some (chain, cause', s') ->
  cause' = None /\
  exists added,
    chain = causeChain ++ added /\
    s' = foldl (Stateful.after_Cause Cause_of) s added /\
    Forall (fun r => is_Some (Cause_of r)) added /\
    match cause with
    | Some (r, _) => head added = Some r
    | None => added = []
    end.
Proof.
  induction fuel as [|fuel IH]; intros causeChain cause s chain cause' s'
    Hmethod; destruct cause as [[r Cause_m]|]; simpl; try done.
  1, 3: intros [= <- <- <-]; split; [done|]; exists [];
        by rewrite app_nil_r.
  destruct (Cause_m s) as [next s1] eqn:Hcall. intros Hloop.
  apply IH in Hloop as (-> & added & -> & -> & Hall & _).
  2: { intros r' m' Hassert. by apply assert_Causer_method in Hassert as [_ ?]. }
  split; [done|]. exists (r :: added).
  pose proof (Hmethod r Cause_m eq_refl) as Hr.
  split; [by rewrite <- app_assoc|]. split; [|split; [|done]].
  - simpl. replace (Stateful.after_Cause Cause_of s r) with s1; [done|].
    unfold Stateful.after_Cause. by rewrite Hr, Hcall.
  - constructor; [by rewrite Hr|done].
Qed.

(** More fuel does not change the result. *)
Lemma ErrorChain_for_fuel (fuel : nat) :
  forall fuel' causeChain cause s result,
  (fuel <= fuel')%nat ->
  Stateful.ErrorChain_for Cause_of fuel causeChain cause s = Some result ->
  Stateful.ErrorChain_for Cause_of fuel' causeChain cause s = Some result.
Proof.
  induction fuel as [|fuel IH]; intros fuel' causeChain cause s result Hle;
    destruct cause as [[r Cause_m]|]; simpl; try done.
  1, 3: by destruct fuel'.
  destruct fuel' as [|fuel']; [lia|]. simpl.
  destruct (Cause_m s) as [next s1]. apply IH. lia.
Qed.

(** Calls of [Cause()] methods that leave the state alone leave it
    alone together. *)
Lemma foldl_after_Cause_read_only (chain : list R) : forall s,
  (forall r Cause_m t,
     r ∈ chain -> Cause_of r = Some Cause_m -> (Cause_m t).2 = t) ->
  foldl (Stateful.after_Cause Cause_of) s chain = s.
Proof.
  induction chain as [|r chain IH]; intros s Hro; [done|]. simpl.
  rewrite IH.
  - unfold Stateful.after_Cause.
    destruct (Cause_of r) as [Cause_m|] eqn:Hr; [|done].
    apply (Hro r Cause_m s); [left | done].
  - intros r' m t Hin. apply Hro. by right.
Qed.

(** C9, as amended: [ErrorChain] itself changes no state.  When a call
    returns, every entry of the result has a [Cause()] method, the first
    entry is the error itself, and the state left is the state reached
    by calling [Cause()] once on each entry, in order.  So when the
    [Cause()] methods of the entries leave the state as it is, the call
    leaves the state as it is, and calling [ErrorChain] again on the
    same error value returns the same ordered output. *)
Theorem Stateful_ErrorChain_repeatable (fuel : nat) (e : option R) (s : S)
  (chain : list R) (s' : S) :
  Stateful.ErrorChain Cause_of fuel e s = Some (chain, s') ->
  s' = foldl (Stateful.after_Cause Cause_of) s chain /\
  Forall (fun r => is_Some (Cause_of r)) chain /\
  match Stateful.assert_Causer Cause_of e with
  | Some (r, _) => head chain = Some r
  | None => chain = []
  end /\
  ((forall r Cause_m t,
      r ∈ chain -> Cause_of r = Some Cause_m -> (Cause_m t).2 = t) ->
   s' = s /\
   forall fuel', (fuel <= fuel')%nat ->
     Stateful.ErrorChain Cause_of fuel' e s' = Some (chain, s')).
Proof.
  unfold Stateful.ErrorChain.
  destruct (Stateful.ErrorChain_for Cause_of fuel [] _ s)
    as [[[causeChain cause] s1]|] eqn:Hloop; [|done].
  pose proof Hloop as Hframe.
  apply ErrorChain_for_frame in Hframe
    as (-> & added & -> & -> & Hall & Hhead).
  2: { intros r m Hassert. by apply assert_Causer_method in Hassert as [_ ?]. }
  intros [= <- <-]. simpl in *.
  split; [done|]. split; [done|]. split; [done|]. intros Hro.
  rewrite (foldl_after_Cause_read_only added s Hro) in *.
  split; [done|]. intros fuel' Hle.
  by rewrite (ErrorChain_for_fuel fuel fuel' [] _ s _ Hle Hloop).
Qed.

End StatefulFacts.

(** With a nil [cause] the loop ends at once. *)
Lemma ErrorChain_for_nil {R S : Type}
  (Cause_of : R -> option (S -> option R * S)) fuel causeChain s :
  Stateful.ErrorChain_for Cause_of fuel causeChain None s
    = Some (causeChain, None, s).
Proof. by destruct fuel. Qed.

(** On the immutable error values the stateful embedding returns what
    the first embedding of [ErrorChain] returns, once the fuel covers
    the chain. *)
Lemma Stateful_ErrorChain_for_errval v : forall fuel causeChain,
  (length (ChainOf v) <= fuel)%nat ->
  Stateful.ErrorChain_for Stateful.Cause_of_errval fuel causeChain
    (Stateful.assert_Causer Stateful.Cause_of_errval (Some v)) tt =
  Some (causeChain ++ filter (fun x => implements_Causer x) (ChainOf v),
        None, tt).
Proof.
  induction v as [status | status next IH | msg trace | msg trace
                 | msg trace next IH] using errval_cause_ind;
    intros fuel causeChain Hfuel.
  3: { cbn [Stateful.assert_Causer Stateful.Cause_of_errval
            implements_Causer].
       rewrite ErrorChain_for_nil. simpl. by rewrite app_nil_r. }
  all: destruct fuel as [|fuel]; [simpl in Hfuel; lia|].
  1, 3: cbn [Stateful.assert_Causer Stateful.Cause_of_errval
             implements_Causer Stateful.ErrorChain_for Cause];
        by rewrite ErrorChain_for_nil.
  all: change (ChainOf ?v) with (v :: ChainOf next).
  all: rewrite filter_cons, decide_True by done.
  all: cbn [Stateful.assert_Causer Stateful.Cause_of_errval
            implements_Causer Stateful.ErrorChain_for Cause].
  all: fold (Stateful.assert_Causer Stateful.Cause_of_errval (Some next)).
  all: rewrite IH by (simpl in Hfuel; lia).
  all: by rewrite <- app_assoc.
Qed.

Lemma Stateful_ErrorChain_errval v fuel :
  (length (ChainOf v) <= fuel)%nat ->
  Stateful.ErrorChain Stateful.Cause_of_errval fuel (Some v) tt =
    Some (ErrorChain (Some v), tt).
Proof.
  intros Hfuel. unfold Stateful.ErrorChain.
  rewrite Stateful_ErrorChain_for_errval by done.
  by rewrite ErrorChain_filter.
Qed.

(** C9 on [outer] caused by a root that has a [Cause()] method, whose
    [Cause()] methods only read the error values. *)
Lemma Stateful_ErrorChain_repeatable_witness :
  let chain := [Examples.outer_of_causer; Examples.inner_causer] in
  Stateful.ErrorChain Stateful.Cause_of_errval 2
    (Some Examples.outer_of_causer) tt = Some (chain, tt) /\
  tt = foldl (Stateful.after_Cause Stateful.Cause_of_errval) tt chain /\
  Forall (fun r => is_Some (Stateful.Cause_of_errval r)) chain /\
  head chain = Some Examples.outer_of_causer /\
  ((forall r Cause_m t,
      r ∈ chain -> Stateful.Cause_of_errval r = Some Cause_m ->
      (Cause_m t).2 = t) ->
   tt = tt /\
   forall fuel', (2 <= fuel')%nat ->
     Stateful.ErrorChain Stateful.Cause_of_errval fuel'
       (Some Examples.outer_of_causer) tt = Some (chain, tt)).
Proof.
  split; [reflexivity|].
  exact (Stateful_ErrorChain_repeatable Stateful.Cause_of_errval 2
           (Some Examples.outer_of_causer) tt
           [Examples.outer_of_causer; Examples.inner_causer] tt eq_refl).
Defined.

(** C9 as stated fails for an error whose [Cause()] method keeps state.
    Error 0 hands out its cause once.  The first call of [ErrorChain]
    returns both errors and leaves the state changed; the second call,
    on the same error value, returns error 0 alone. *)
Lemma ErrorChain_stateful_Cause_differs :
  Stateful.ErrorChain Examples.once_Cause_of 3 (Some 0%nat) false
    = Some ([0%nat; 1%nat], true) /\
  Stateful.ErrorChain Examples.once_Cause_of 3 (Some 0%nat) true
    = Some ([0%nat], true) /\
  [0%nat; 1%nat] <> [0%nat] /\
  true <> false.
Proof. repeat split; try reflexivity; discriminate. Qed.
